(** * Whiteboard server actions: a shallow embedding

    The development embeds the server-side part of the collaborative
    whiteboard:

    - [actions/boardActions.ts]: [saveBoardState], [createBoard],
      [renameBoard], [deleteBoard];
    - [app/board/[roomId]/page.tsx]: [BoardPage], the room-join path;
    - the [UndoableAction] discriminated union of the history log.

    JavaScript strings are sequences of UTF-16 code units, so that
    [String.prototype.trim] and [.length] mean what they mean in the source.
    The server actions are [async] functions with [try]/[catch] blocks that
    talk to a relational store through the Prisma client; they are embedded
    in a state-and-exception monad over an explicit world (the table, the log
    of the client calls that were issued, the revalidated paths), with the
    answers of the outside (session lookup, identifier generation, store
    failures, clock) read from an environment record.  Console output is not
    part of the world: nothing below depends on it. *)

From Stdlib Require Import List String Ascii NArith ZArith Bool Lia.
From Stdlib Require Import Permutation Sorted.
Import ListNotations.

Set Implicit Arguments.
Set Warnings "-register-all".

(* ================================================================== *)
(** * JavaScript strings *)

Module Js.

(** A string is its list of UTF-16 code units. *)
Definition JsString := list N.

(** An ASCII literal of the source as a JavaScript string. *)
Fixpoint lit (s : string) : JsString :=
  match s with
  | EmptyString => []
  | String c s' => N_of_ascii c :: lit s'
  end.

Fixpoint eqb (a b : JsString) : bool :=
  match a, b with
  | [], [] => true
  | x :: a', y :: b' => N.eqb x y && eqb a' b'
  | _, _ => false
  end.

(** [!s] is true for the empty string only. *)
Definition truthy (s : JsString) : bool :=
  match s with [] => false | _ :: _ => true end.

(** ECMAScript [WhiteSpace] and [LineTerminator] code points, the ones
    [trim] strips.  All of them lie in the basic plane, so the test on a
    code unit is the test on the code point. *)
Definition isWhiteSpace (c : N) : bool :=
  (c =? 9)%N || (c =? 10)%N || (c =? 11)%N || (c =? 12)%N || (c =? 13)%N
  || (c =? 32)%N || (c =? 160)%N || (c =? 5760)%N
  || ((8192 <=? c)%N && (c <=? 8202)%N)
  || (c =? 8232)%N || (c =? 8233)%N || (c =? 8239)%N || (c =? 8287)%N
  || (c =? 12288)%N || (c =? 65279)%N.

Fixpoint trimStart (s : JsString) : JsString :=
  match s with
  | [] => []
  | c :: s' => if isWhiteSpace c then trimStart s' else s
  end.

Definition trimEnd (s : JsString) : JsString := rev (trimStart (rev s)).

Definition trim (s : JsString) : JsString := trimEnd (trimStart s).

(** [s.length]: the number of code units. *)
Definition length (s : JsString) : nat := List.length s.

(** Values a caller can hand to a server action as a board payload.  The
    number payload is opaque to the actions.  [JBigInt] and [JCircular] (a
    reference from inside an object or array back to one that encloses it)
    are the two shapes on which [JSON.stringify] raises a [TypeError]. *)
Inductive JsValue : Type :=
| JNull
| JBool (b : bool)
| JNumber (n : Z)
| JString (s : JsString)
| JArray (items : list JsValue)
| JObject (fields : list (JsString * JsValue))
| JBigInt (n : Z)
| JCircular.

(** Does [JSON.stringify v] throw?  It walks the whole value. *)
Fixpoint stringify_throws (v : JsValue) : bool :=
  match v with
  | JBigInt _ | JCircular => true
  | JArray items => existsb stringify_throws items
  | JObject fields =>
      (fix any (l : list (JsString * JsValue)) : bool :=
         match l with
         | [] => false
         | (_, x) :: l' => stringify_throws x || any l'
         end) fields
  | JNull | JBool _ | JNumber _ | JString _ => false
  end.

End Js.

Import Js.

(* ================================================================== *)
(** * The durable record *)

(** Modelled from the spec: the [Whiteboard] table of the Prisma schema, which
    is not among the sources.  Section 6 lists its fields: [id] (primary
    key, distinct from [roomId]), [roomId] (unique), [name], [boardData] (a
    JSON blob, absent until the first save since [create] takes only
    [userId], [roomId] and [name]), [userId] (the owner) and [updatedAt]. *)
Record Whiteboard : Type := mkWhiteboard {
  wb_id : JsString;
  wb_roomId : JsString;
  wb_name : JsString;
  wb_boardData : option JsValue;
  wb_userId : JsString;
  wb_updatedAt : Z
}.

(** The table: its rows, in insertion order. *)
Definition Table := list Whiteboard.

(* ================================================================== *)
(** * Exceptions, sessions, environment and world *)

(** Values that are thrown in the code under study. *)
Inductive Exn : Type :=
| TypeError                              (* JSON.stringify *)
| PrismaError (code : option string)     (* a rejected client call; known
                                            request errors carry a code *)
| OtherError                             (* any other thrown value *)
| NextRedirect (path : string).          (* redirect() ends rendering by
                                            throwing *)

Inductive Outcome (A : Type) : Type :=
| Returned (a : A)
| Thrown (e : Exn).

Arguments Returned {A} a.
Arguments Thrown {A} e.

(** The next-auth session: [session.user.id] is filled in by the [session]
    callback of [authOptions]. *)
Record SessionUser : Type := mkSessionUser {
  su_id : option JsString;
  su_name : option JsString
}.

Record Session : Type := mkSession {
  user : option SessionUser
}.

(** What the outside answers during one call of an action. *)
Record Env : Type := mkEnv {
  session : option Session;        (* getServerSession(authOptions) *)
  cuid : Outcome JsString;         (* Cuid.createId() *)
  dbFault : option Exn;            (* the store rejects the call *)
  dbFreshId : JsString;            (* the primary key a new row receives *)
  now : Z                          (* the store's clock, for updatedAt *)
}.

(** The calls the Prisma client can be asked to make, with their
    arguments. *)
Inductive DbCall : Type :=
| CallUpsert (whereRoomId : JsString) (updateBoardData : JsValue)
             (createRoomId : JsString) (createBoardData : JsValue)
             (createName createUserId : JsString)
| CallCreate (dataUserId dataRoomId dataName : JsString)
| CallUpdateMany (whereId whereUserId : JsString) (dataName : JsString)
| CallDeleteMany (whereId whereUserId : JsString)
| CallFindUnique (whereRoomId : JsString).

Record World : Type := mkWorld {
  db : Table;
  dbCalls : list DbCall;          (* most recent last *)
  revalidated : list string       (* revalidatePath arguments, in order *)
}.

(* ================================================================== *)
(** * The monad of server code *)

Definition M (A : Type) : Type := Env -> World -> Outcome A * World.

Definition ret {A} (a : A) : M A := fun _ w => (Returned a, w).

Definition bind {A B} (m : M A) (k : A -> M B) : M B :=
  fun env w =>
    match m env w with
    | (Returned a, w') => k a env w'
    | (Thrown e, w') => (Thrown e, w')
    end.

Definition throw {A} (e : Exn) : M A := fun _ w => (Thrown e, w).

(** [try { body } catch (error) { handler }] *)
Definition try_catch {A} (body : M A) (handler : Exn -> M A) : M A :=
  fun env w =>
    match body env w with
    | (Returned a, w') => (Returned a, w')
    | (Thrown e, w') => handler e env w'
    end.

Declare Scope action_scope.
Delimit Scope action_scope with action.
Notation "x <- m ;; k" := (bind m (fun x => k))
  (at level 61, m at next level, right associativity) : action_scope.
Notation "m ;;; k" := (bind m (fun _ => k))
  (at level 61, right associativity) : action_scope.

Open Scope action_scope.

(* ================================================================== *)
(** * The Prisma client on the [whiteboard] model *)

Module Prisma.

(** Every client call is logged before the store sees it.  A rejected call
    throws and leaves the table as it was; the foreign key from [userId] to
    the user table, which is outside this model, is one source of such
    rejections (code [P2003]). *)
Definition call {A} (c : DbCall) (run : Env -> Table -> Outcome A * Table)
  : M A :=
  fun env w =>
    let logged := dbCalls w ++ [c] in
    match dbFault env with
    | Some e => (Thrown e, mkWorld (db w) logged (revalidated w))
    | None =>
        let (r, t) := run env (db w) in
        (r, mkWorld t logged (revalidated w))
    end.

Definition byRoomId (rid : JsString) (r : Whiteboard) : bool :=
  Js.eqb (wb_roomId r) rid.

Definition byId (i : JsString) (r : Whiteboard) : bool :=
  Js.eqb (wb_id r) i.

(** [where: { id, userId }] *)
Definition byIdAndOwner (i uid : JsString) (r : Whiteboard) : bool :=
  Js.eqb (wb_id r) i && Js.eqb (wb_userId r) uid.

(** Insertion enforces the two unique columns. *)
Definition insert (row : Whiteboard) (t : Table)
  : Outcome Whiteboard * Table :=
  if existsb (byId (wb_id row)) t || existsb (byRoomId (wb_roomId row)) t
  then (Thrown (PrismaError (Some "P2002"%string)), t)
  else (Returned row, t ++ [row]).

Definition setBoardData (bd : JsValue) (at_ : Z) (r : Whiteboard)
  : Whiteboard :=
  mkWhiteboard (wb_id r) (wb_roomId r) (wb_name r) (Some bd) (wb_userId r) at_.

Definition setName (n : JsString) (at_ : Z) (r : Whiteboard) : Whiteboard :=
  mkWhiteboard (wb_id r) (wb_roomId r) n (wb_boardData r) (wb_userId r) at_.

Definition upsert_run (rid : JsString) (updateBoardData : JsValue)
    (cRoomId : JsString) (cBoardData : JsValue) (cName cUserId : JsString)
    (env : Env) (t : Table) : Outcome Whiteboard * Table :=
  match find (byRoomId rid) t with
  | Some r =>
      (Returned (setBoardData updateBoardData (now env) r),
       map (fun x => if byRoomId rid x
                     then setBoardData updateBoardData (now env) x
                     else x) t)
  | None =>
      insert (mkWhiteboard (dbFreshId env) cRoomId cName (Some cBoardData)
                           cUserId (now env)) t
  end.

(** [upsert({ where: { roomId }, update: { boardData },
              create: { roomId, boardData, name, userId } })] *)
Definition upsert (rid : JsString) (updateBoardData : JsValue)
    (cRoomId : JsString) (cBoardData : JsValue) (cName cUserId : JsString)
  : M Whiteboard :=
  call (CallUpsert rid updateBoardData cRoomId cBoardData cName cUserId)
       (upsert_run rid updateBoardData cRoomId cBoardData cName cUserId).

Definition create_run (dUserId dRoomId dName : JsString)
    (env : Env) (t : Table) : Outcome JsString * Table :=
  match insert (mkWhiteboard (dbFreshId env) dRoomId dName None dUserId
                             (now env)) t with
  | (Returned row, t') => (Returned (wb_roomId row), t')
  | (Thrown e, t') => (Thrown e, t')
  end.

(** [create({ data: { userId, roomId, name }, select: { roomId: true } })] *)
Definition create (dUserId dRoomId dName : JsString) : M JsString :=
  call (CallCreate dUserId dRoomId dName) (create_run dUserId dRoomId dName).

Definition updateMany_run (i uid n : JsString) (env : Env) (t : Table)
  : Outcome nat * Table :=
  (Returned (List.length (filter (byIdAndOwner i uid) t)),
   map (fun x => if byIdAndOwner i uid x then setName n (now env) x else x) t).

(** [updateMany({ where: { id, userId }, data: { name } })], answering
    [count]. *)
Definition updateMany (i uid n : JsString) : M nat :=
  call (CallUpdateMany i uid n) (updateMany_run i uid n).

Definition deleteMany_run (i uid : JsString) (env : Env) (t : Table)
  : Outcome nat * Table :=
  (Returned (List.length (filter (byIdAndOwner i uid) t)),
   filter (fun x => negb (byIdAndOwner i uid x)) t).

(** [deleteMany({ where: { id, userId } })], answering [count]. *)
Definition deleteMany (i uid : JsString) : M nat :=
  call (CallDeleteMany i uid) (deleteMany_run i uid).

Definition findUnique_run (rid : JsString) (env : Env) (t : Table)
  : Outcome (option (option JsValue)) * Table :=
  (Returned (option_map wb_boardData (find (byRoomId rid) t)), t).

(** [findUnique({ where: { roomId }, select: { boardData: true } })]: the
    selected row or [null]. *)
Definition findUnique (rid : JsString) : M (option (option JsValue)) :=
  call (CallFindUnique rid) (findUnique_run rid).

End Prisma.

(* ================================================================== *)
(** * Collaborators of the actions *)

Definition getServerSession : M (option Session) :=
  fun env w => (Returned (session env), w).

(** [session?.user?.id] *)
Definition session_user_id (s : option Session) : option JsString :=
  match s with
  | Some s' => match user s' with
               | Some u => su_id u
               | None => None
               end
  | None => None
  end.

(** The identifier bound to [userId] once [!session?.user?.id] is false:
    an absent or empty id does not pass. *)
Definition authenticatedUserId (s : option Session) : option JsString :=
  match session_user_id s with
  | Some uid => if Js.truthy uid then Some uid else None
  | None => None
  end.

Definition Cuid_createId : M JsString :=
  fun env w => (cuid env, w).

Definition revalidatePath (path : string) : M unit :=
  fun _ w => (Returned tt, mkWorld (db w) (dbCalls w) (revalidated w ++ [path])).

(** [JSON.stringify(v)], whose text the caller drops. *)
Definition JSON_stringify (v : JsValue) : M unit :=
  if stringify_throws v then throw TypeError else ret tt.

(** [redirect(path)] of next/navigation. *)
Definition redirect {A} (path : string) : M A := throw (NextRedirect path).

(* ================================================================== *)
(** * Results of the actions *)

(** [{ success: boolean; error?: string; <payload>?: P }] *)
Record Result (P : Type) : Type := mkResult {
  success : bool;
  error : option string;
  payload : option P
}.

Definition failure {P} (msg : string) : Result P :=
  mkResult false (Some msg) None.

Definition ok {P} : Result P := mkResult true None None.

Definition ok_with {P} (p : P) : Result P := mkResult true None (Some p).

(** [renameBoard] and [deleteBoard] answer [{ success, error? }] only. *)
Definition NoPayload : Type := Empty_set.

(* ================================================================== *)
(** * actions/boardActions.ts *)

(** The key check shared by the actions,
    [!k || typeof k !== 'string' || k.trim() === ''], on a parameter typed
    [string] (which settles the middle test). *)
Definition invalidKey (k : JsString) : bool :=
  negb (Js.truthy k) || Js.eqb (Js.trim k) (Js.lit "").

Definition saveBoardState (roomId : JsString) (boardData : JsValue)
  : M (Result Whiteboard) :=
  if invalidKey roomId then ret (failure "Invalid Room ID provided.")
  else
    serializable <-
      try_catch (JSON_stringify boardData ;;; ret true)
                (fun _ => ret false) ;;
    if negb serializable
    then ret (failure "boardData is not JSON-serializable.")
    else
      try_catch
        (savedWhiteboard <-
           Prisma.upsert roomId boardData
                         roomId boardData (Js.lit "Untitled Whiteboard")
                         (Js.lit "1") ;;
         ret (ok_with savedWhiteboard))
        (fun _ => ret (failure "Failed to save whiteboard state.")).

(** The [catch] block of [createBoard]: a thrown object with a [code]
    property is looked up in the [switch]. *)
Definition createBoard_onError (e : Exn) : Result JsString :=
  match e with
  | PrismaError (Some errorCode) =>
      if String.eqb errorCode "P2002"
      then failure
             "A board with this identifier already exists. Please try again."
      else if String.eqb errorCode "P2003"
      then failure "Invalid user reference. Please try again."
      else failure "An unexpected error occurred. Please try again later."
  | _ => failure "An unexpected error occurred. Please try again later."
  end.

Definition createBoard : M (Result JsString) :=
  session <- getServerSession ;;
  match authenticatedUserId session with
  | None => ret (failure "User not authenticated.")
  | Some userId =>
      generated <-
        try_catch (roomId <- Cuid_createId ;; ret (Some roomId))
                  (fun _ => ret None) ;;
      match generated with
      | None =>
          ret (failure
            "Failed to generate unique board identifier. Please try again.")
      | Some roomId =>
          let boardName := Js.lit "Untitled Whiteboard" in
          try_catch
            (newBoardRoomId <- Prisma.create userId roomId boardName ;;
             revalidatePath "/dashboard" ;;;
             ret (ok_with newBoardRoomId))
            (fun e => ret (createBoard_onError e))
      end
  end.

Definition renameBoard (boardId newName : JsString) : M (Result NoPayload) :=
  session <- getServerSession ;;
  match authenticatedUserId session with
  | None => ret (failure "User not authenticated.")
  | Some userId =>
      if invalidKey boardId then ret (failure "Invalid Board ID provided.")
      else
        let trimmedName := Js.trim newName in
        if negb (Js.truthy trimmedName) || (Js.length trimmedName =? 0)%nat
        then ret (failure "Board name cannot be empty.")
        else if (60 <? Js.length trimmedName)%nat
        then ret (failure "Board name cannot exceed 60 characters.")
        else
          try_catch
            (count <- Prisma.updateMany boardId userId trimmedName ;;
             if (count =? 0)%nat
             then ret (failure "Board not found or permission denied.")
             else revalidatePath "/dashboard" ;;; ret ok)
            (fun _ =>
               ret (failure
                 "Failed to rename whiteboard due to a server error."))
  end.

Definition deleteBoard (boardId : JsString) : M (Result NoPayload) :=
  session <- getServerSession ;;
  match authenticatedUserId session with
  | None => ret (failure "User not authenticated.")
  | Some userId =>
      if invalidKey boardId then ret (failure "Invalid Board ID provided.")
      else
        try_catch
          (count <- Prisma.deleteMany boardId userId ;;
           if (count =? 0)%nat
           then ret (failure "Board not found or permission denied.")
           else revalidatePath "/dashboard" ;;; ret ok)
          (fun _ =>
             ret (failure
               "Failed to delete whiteboard due to a server error."))
  end.

(* ================================================================== *)
(** * app/board/[roomId]/page.tsx *)

(** What the page renders: the whiteboard of a room, fed with the stored
    board data. *)
Inductive Page : Type :=
| WhiteboardView (roomId : JsString) (initialData : option JsValue).

Definition BoardPage (roomId : JsString) : M Page :=
  session <- getServerSession ;;
  match session with
  | Some {| user := Some _ |} =>
      board <- Prisma.findUnique roomId ;;
      match board with
      | None => redirect "/dashboard"
      | Some boardData => ret (WhiteboardView roomId boardData)
      end
  | _ => redirect "/signin"
  end.

(* ================================================================== *)
(** * The history log's action type *)

(** [CanvasObjectSnapshot]: [type], and [data] with its required [id] and
    an open set of further properties. *)
Record CanvasObjectSnapshot : Type := mkSnapshot {
  snap_type : JsString;
  snap_id : JsString;
  snap_props : list (JsString * JsValue)
}.

Inductive UndoableAction : Type :=
| ADD (objectId : JsString)
| DELETE (previousObjectState : CanvasObjectSnapshot)
| MODIFY (objectId : JsString) (stateBefore : list (JsString * JsValue)).

(** The discriminant, the [type] property. *)
Definition action_type (a : UndoableAction) : string :=
  match a with
  | ADD _ => "ADD"
  | DELETE _ => "DELETE"
  | MODIFY _ _ => "MODIFY"
  end.

(** The properties of [payload], by variant. *)
Definition payload_objectId (a : UndoableAction) : option JsString :=
  match a with
  | ADD objectId => Some objectId
  | DELETE _ => None
  | MODIFY objectId _ => Some objectId
  end.

Definition payload_previousObjectState (a : UndoableAction)
  : option CanvasObjectSnapshot :=
  match a with
  | DELETE previousObjectState => Some previousObjectState
  | _ => None
  end.

Definition payload_stateBefore (a : UndoableAction)
  : option (list (JsString * JsValue)) :=
  match a with
  | MODIFY _ stateBefore => Some stateBefore
  | _ => None
  end.

(* ================================================================== *)
(** * Vocabulary of the statements *)

(** The world once a client call has been issued and rejected, or has
    changed nothing. *)
Definition logCall (c : DbCall) (w : World) : World :=
  mkWorld (db w) (dbCalls w ++ [c]) (revalidated w).

(** The one client call of each action, as it is logged. *)
Definition saveCall (roomId : JsString) (boardData : JsValue) : DbCall :=
  CallUpsert roomId boardData roomId boardData
             (Js.lit "Untitled Whiteboard") (Js.lit "1").

Definition renameCall (boardId userId newName : JsString) : DbCall :=
  CallUpdateMany boardId userId (Js.trim newName).

(** The table after the owner-scoped rename. *)
Definition renamed (boardId userId newName : JsString) (env : Env) (t : Table)
  : Table :=
  map (fun x => if Prisma.byIdAndOwner boardId userId x
                then Prisma.setName (Js.trim newName) (now env) x
                else x) t.

Definition deleteCall (boardId userId : JsString) : DbCall :=
  CallDeleteMany boardId userId.

(** Concrete callers, environments and worlds for the examples. *)
Module Sample.

Definition alice : JsString := Js.lit "alice".
Definition bob : JsString := Js.lit "bob".

Definition signedIn (uid : JsString) : option Session :=
  Some (mkSession (Some (mkSessionUser (Some uid) None))).

Definition envOf (s : option Session) : Env :=
  mkEnv s (Returned (Js.lit "room2")) None (Js.lit "b2") 7%Z.

Definition faulty (s : option Session) : Env :=
  mkEnv s (Returned (Js.lit "room2")) (Some (PrismaError None))
        (Js.lit "b2") 7%Z.

Definition alicesBoard : Whiteboard :=
  mkWhiteboard (Js.lit "b1") (Js.lit "room1") (Js.lit "Plan") None alice 5%Z.

Definition w1 : World := mkWorld [alicesBoard] [] [].

Definition w0 : World := mkWorld [] [] [].

End Sample.

(** The failure results the actions return, by name. *)
Definition permissionDenied : Result NoPayload :=
  failure "Board not found or permission denied.".

Definition notAuthenticated {P} : Result P :=
  failure "User not authenticated.".

Definition saveFailed : Result Whiteboard :=
  failure "Failed to save whiteboard state.".

Definition notSerializable : Result Whiteboard :=
  failure "boardData is not JSON-serializable.".

Definition invalidRoomId : Result Whiteboard :=
  failure "Invalid Room ID provided.".

(** The row the [create] branch of the upsert inserts. *)
Definition createdBySave (roomId : JsString) (boardData : JsValue) (env : Env)
  : Whiteboard :=
  mkWhiteboard (dbFreshId env) roomId (Js.lit "Untitled Whiteboard")
               (Some boardData) (Js.lit "1") (now env).

(** The same environment with another caller signed in (or none). *)
Definition withSession (s : option Session) (env : Env) : Env :=
  mkEnv s (cuid env) (dbFault env) (dbFreshId env) (now env).

(** A payload with a reference back to itself, as in
    [const o = {}; o.self = o]. *)
Definition selfReferring : JsValue := JObject [(Js.lit "self", JCircular)].

(** Two rows that agree on everything a save must not touch. *)
Definition sameIdentity (r r' : Whiteboard) : Prop :=
  wb_id r' = wb_id r /\ wb_roomId r' = wb_roomId r
  /\ wb_name r' = wb_name r /\ wb_userId r' = wb_userId r.

(* ================================================================== *)
(** * app/dashboard/page.tsx *)

(** [interface Board]: the columns the dashboard selects. *)
Record Board : Type := mkBoard {
  board_id : JsString;
  board_roomId : JsString;
  board_name : JsString;
  board_updatedAt : Z
}.

(** [select: { id, roomId, name, updatedAt }] *)
Definition selectBoard (r : Whiteboard) : Board :=
  mkBoard (wb_id r) (wb_roomId r) (wb_name r) (wb_updatedAt r).

(** [where: { userId }].  The client leaves a condition whose value is
    [undefined] out of the query, so a session user without an id puts no
    condition on the rows. *)
Definition byOwner (uid : option JsString) (r : Whiteboard) : bool :=
  match uid with
  | Some u => Js.eqb (wb_userId r) u
  | None => true
  end.

(** [orderBy: { updatedAt: 'desc' }], as an insertion sort; rows with equal
    stamps come out in one of the orders the store may choose. *)
Fixpoint insertByUpdatedAt (r : Whiteboard) (l : list Whiteboard)
  : list Whiteboard :=
  match l with
  | [] => [r]
  | x :: l' =>
      if (wb_updatedAt x <? wb_updatedAt r)%Z
      then r :: l
      else x :: insertByUpdatedAt r l'
  end.

Definition orderByUpdatedAtDesc (l : list Whiteboard) : list Whiteboard :=
  fold_right insertByUpdatedAt [] l.

(** [findMany({ where: { userId }, orderBy: { updatedAt: 'desc' },
                select: { id, roomId, name, updatedAt } })].  It only reads;
    it is not among the logged calls, which are those of the actions and of
    the board page. *)
Definition Prisma_findMany (uid : option JsString) : M (list Board) :=
  fun env w =>
    match dbFault env with
    | Some e => (Thrown e, w)
    | None =>
        (Returned
           (map selectBoard (orderByUpdatedAtDesc (filter (byOwner uid) (db w)))),
         w)
    end.

(** What the dashboard shows under its heading: the empty-state message, or
    one list item per board, in order. *)
Inductive Dashboard : Type :=
| NoWhiteboardsYet
| BoardListItems (items : list Board).

Definition DashboardPage : M Dashboard :=
  session <- getServerSession ;;
  match session with
  | Some {| user := Some u |} =>
      boards <- Prisma_findMany (su_id u) ;;
      ret (if (List.length boards =? 0)%nat
           then NoWhiteboardsYet
           else BoardListItems boards)
  | _ => redirect "/signin"
  end.

(** The boards a dashboard lists. *)
Definition listed (v : Dashboard) : list Board :=
  match v with
  | NoWhiteboardsYet => []
  | BoardListItems items => items
  end.

(* ================================================================== *)
(** * lib/auth.ts: the session callback *)

(** [callbacks.session({ session, user })]: copies the id of the database
    user into [session.user], when the session has a user. *)
Definition authOptions_session (s : Session) (userId : JsString) : Session :=
  match user s with
  | Some u => mkSession (Some (mkSessionUser (Some userId) (su_name u)))
  | None => s
  end.

(* ================================================================== *)
(** * More vocabulary *)

(** The two unique columns of the table. *)
Definition uniqueColumns (t : Table) : Prop :=
  NoDup (map wb_id t) /\ NoDup (map wb_roomId t).

(** The row [createBoard] inserts. *)
Definition createdByCreate (userId roomId : JsString) (env : Env)
  : Whiteboard :=
  mkWhiteboard (dbFreshId env) roomId (Js.lit "Untitled Whiteboard") None
               userId (now env).

(** Two rows that agree on everything a rename must not touch. *)
Definition sameButName (r r' : Whiteboard) : Prop :=
  wb_id r' = wb_id r /\ wb_roomId r' = wb_roomId r
  /\ wb_boardData r' = wb_boardData r /\ wb_userId r' = wb_userId r.

(** Newest first. *)
Definition newerFirst (a b : Board) : Prop :=
  (board_updatedAt b <= board_updatedAt a)%Z.

(** A signed-in environment whose store answers. *)
Definition signedInAs (u : SessionUser) (env : Env) : Prop :=
  session env = Some (mkSession (Some u)) /\ dbFault env = None.

(** The lookup of the board page, as it is logged. *)
Definition joinCall (roomId : JsString) : DbCall := CallFindUnique roomId.

(** Newest first, on rows. *)
Definition newerFirstRow (a b : Whiteboard) : Prop :=
  (wb_updatedAt b <= wb_updatedAt a)%Z.

(** What [findMany] answers on a table. *)
Definition boardsOf (uid : option JsString) (t : Table) : list Board :=
  map selectBoard (orderByUpdatedAtDesc (filter (byOwner uid) t)).

Definition invalidBoardId : Result NoPayload :=
  failure "Invalid Board ID provided.".

Definition alreadyExists : Result JsString :=
  failure "A board with this identifier already exists. Please try again.".

Definition noIdentifier : Result JsString :=
  failure "Failed to generate unique board identifier. Please try again.".

(* ================================================================== *)
(** * Facts about strings and tables *)

Section StringFacts.

Lemma eqb_refl_js (a : JsString) : Js.eqb a a = true.
Proof.
  induction a as [|x a IH]; simpl; [reflexivity|].
  now rewrite N.eqb_refl, IH.
Qed.

Lemma eqb_eq_js (a b : JsString) : Js.eqb a b = true <-> a = b.
Proof.
  split; [|intros ->; apply eqb_refl_js].
  revert b; induction a as [|x a IH]; intros [|y b] H; simpl in H;
    try discriminate; [reflexivity|].
  apply andb_true_iff in H as [Hx Hab].
  apply N.eqb_eq in Hx. f_equal; auto.
Qed.

Lemma eqb_neq_js (a b : JsString) : Js.eqb a b = false <-> a <> b.
Proof.
  rewrite <- eqb_eq_js. destruct (Js.eqb a b); split; congruence.
Qed.

(** The two emptiness tests of [renameBoard] are one test. *)
Lemma empty_name_test (t : JsString) :
  negb (Js.truthy t) || (Js.length t =? 0)%nat = true <-> t = [].
Proof.
  destruct t; simpl; split; congruence.
Qed.

Lemma invalidKey_blank (k : JsString) :
  invalidKey k = true <-> Js.trim k = [].
Proof.
  unfold invalidKey. destruct k as [|c k]; simpl; [tauto|].
  change (Js.lit "") with (@nil N).
  destruct (Js.trim (c :: k)); simpl; split; congruence.
Qed.

(** [trimStart] removes a block of white space from the front and stops
    at the first unit that is not white space. *)
Lemma trimStart_split (s : JsString) :
  exists pre,
    s = pre ++ Js.trimStart s /\ forallb Js.isWhiteSpace pre = true.
Proof.
  induction s as [|c s (pre & Hs & Hpre)]; simpl.
  - exists []. auto.
  - destruct (Js.isWhiteSpace c) eqn:E.
    + exists (c :: pre). simpl. rewrite E, Hpre.
      split; [f_equal; exact Hs | reflexivity].
    + exists []. auto.
Qed.

Lemma trimStart_head (s : JsString) (c : N) (rest : JsString) :
  Js.trimStart s = c :: rest -> Js.isWhiteSpace c = false.
Proof.
  induction s as [|x s IH]; simpl; [discriminate|].
  destruct (Js.isWhiteSpace x) eqn:E; [exact IH|].
  intros [= <- _]. exact E.
Qed.

(** [trim s] is [s] without a block of white space at either end, and it
    neither starts nor ends with white space. *)
Lemma trim_split (s : JsString) :
  exists pre post,
    s = pre ++ Js.trim s ++ post
    /\ forallb Js.isWhiteSpace pre = true
    /\ forallb Js.isWhiteSpace post = true.
Proof.
  destruct (trimStart_split s) as (pre & Hs & Hpre).
  destruct (trimStart_split (rev (Js.trimStart s))) as (q & Hq & Hqws).
  exists pre, (rev q). repeat split; [|exact Hpre|].
  - rewrite Hs at 1. f_equal. unfold Js.trim, Js.trimEnd.
    rewrite <- rev_app_distr, <- Hq. symmetry. apply rev_involutive.
  - rewrite forallb_forall in *. intros x Hx. apply Hqws.
    now apply in_rev.
Qed.

Lemma trim_first (s : JsString) (c : N) (rest : JsString) :
  Js.trim s = c :: rest -> Js.isWhiteSpace c = false.
Proof.
  intros Ht.
  destruct (trimStart_split (rev (Js.trimStart s))) as (q & Hq & _).
  apply (f_equal (@rev N)) in Hq. rewrite rev_involutive, rev_app_distr in Hq.
  fold (Js.trimEnd (Js.trimStart s)) in Hq. fold (Js.trim s) in Hq.
  rewrite Ht in Hq. simpl in Hq.
  now apply trimStart_head with (s := s) (rest := rest ++ rev q).
Qed.

Lemma trim_last (s : JsString) (c : N) (front : JsString) :
  Js.trim s = front ++ [c] -> Js.isWhiteSpace c = false.
Proof.
  unfold Js.trim, Js.trimEnd. intros Ht.
  apply (f_equal (@rev N)) in Ht.
  rewrite rev_involutive, rev_app_distr in Ht. simpl in Ht.
  now apply trimStart_head in Ht.
Qed.

End StringFacts.

Section TableFacts.

Variable p : Whiteboard -> bool.
Variable f : Whiteboard -> Whiteboard.

Lemma no_match_count (t : Table) :
  (forall r, In r t -> p r = false) -> List.length (filter p t) = 0%nat.
Proof.
  induction t as [|x t IH]; intros H; simpl; [reflexivity|].
  rewrite (H x (or_introl eq_refl)). apply IH. intros r Hr. apply H. now right.
Qed.

Lemma no_match_map (t : Table) :
  (forall r, In r t -> p r = false) ->
  map (fun x => if p x then f x else x) t = t.
Proof.
  induction t as [|x t IH]; intros H; simpl; [reflexivity|].
  rewrite (H x (or_introl eq_refl)). f_equal. apply IH.
  intros r Hr. apply H. now right.
Qed.

Lemma no_match_keep (t : Table) :
  (forall r, In r t -> p r = false) -> filter (fun x => negb (p x)) t = t.
Proof.
  induction t as [|x t IH]; intros H; simpl; [reflexivity|].
  rewrite (H x (or_introl eq_refl)). simpl. f_equal. apply IH.
  intros r Hr. apply H. now right.
Qed.

Lemma count_zero_no_match (t : Table) :
  List.length (filter p t) = 0%nat -> forall r, In r t -> p r = false.
Proof.
  induction t as [|x t IH]; simpl; intros H r Hr; [contradiction|].
  destruct (p x) eqn:E; [discriminate|].
  destruct Hr as [<-|Hr]; auto.
Qed.

Lemma count_pos_some_match (t : Table) :
  List.length (filter p t) <> 0%nat -> exists r, In r t /\ p r = true.
Proof.
  induction t as [|x t IH]; simpl; intros H; [congruence|].
  destruct (p x) eqn:E.
  - exists x; auto.
  - destruct (IH H) as (r & Hr & Hp). exists r; auto.
Qed.

End TableFacts.

(** With a unique [id] column an owner-scoped filter matches at most one
    row: [count] is 0 or 1, as the comments of the actions say. *)
Lemma unique_id_count (i uid : JsString) (t : Table) :
  NoDup (map wb_id t) ->
  (List.length (filter (Prisma.byIdAndOwner i uid) t) <= 1)%nat.
Proof.
  induction t as [|x t IH]; simpl; intros Hnd; [lia|].
  inversion Hnd as [|? ? Hnotin Hnd']; subst.
  destruct (Prisma.byIdAndOwner i uid x) eqn:E; [|auto].
  simpl. rewrite no_match_count; [lia|].
  intros r Hr. unfold Prisma.byIdAndOwner in *.
  apply andb_true_iff in E as [Ei _]. apply eqb_eq_js in Ei.
  destruct (Js.eqb (wb_id r) i) eqn:Er; [|reflexivity].
  apply eqb_eq_js in Er.
  exfalso. apply Hnotin. apply in_map_iff. exists r. split; congruence.
Qed.

Lemma byIdAndOwner_true (i uid : JsString) (r : Whiteboard) :
  Prisma.byIdAndOwner i uid r = true <-> wb_id r = i /\ wb_userId r = uid.
Proof.
  unfold Prisma.byIdAndOwner. rewrite andb_true_iff, !eqb_eq_js. tauto.
Qed.

Lemma byIdAndOwner_false (i uid : JsString) (r : Whiteboard) :
  Prisma.byIdAndOwner i uid r = false <-> wb_id r <> i \/ wb_userId r <> uid.
Proof.
  unfold Prisma.byIdAndOwner. rewrite andb_false_iff, !eqb_neq_js. tauto.
Qed.

Lemma byRoomId_true (rid : JsString) (r : Whiteboard) :
  Prisma.byRoomId rid r = true <-> wb_roomId r = rid.
Proof. apply eqb_eq_js. Qed.

Lemma find_absent (rid : JsString) (t : Table) :
  (forall r, In r t -> wb_roomId r <> rid) -> find (Prisma.byRoomId rid) t = None.
Proof.
  intros H. destruct (find (Prisma.byRoomId rid) t) eqn:E; [|reflexivity].
  apply find_some in E as [Hin Hb]. apply byRoomId_true in Hb.
  now destruct (H _ Hin).
Qed.

Lemma exists_absent (rid : JsString) (t : Table) :
  (forall r, In r t -> wb_roomId r <> rid) ->
  existsb (Prisma.byRoomId rid) t = false.
Proof.
  intros H. destruct (existsb (Prisma.byRoomId rid) t) eqn:E; [|reflexivity].
  apply existsb_exists in E as (r & Hin & Hb). apply byRoomId_true in Hb.
  now destruct (H _ Hin).
Qed.

(* ================================================================== *)
(** * What each action computes, path by path *)

Lemma saveBoardState_paths roomId boardData env w :
  saveBoardState roomId boardData env w =
  if invalidKey roomId
  then (Returned (failure "Invalid Room ID provided."), w)
  else if stringify_throws boardData
  then (Returned (failure "boardData is not JSON-serializable."), w)
  else
    match dbFault env with
    | Some _ =>
        (Returned (failure "Failed to save whiteboard state."),
         logCall (saveCall roomId boardData) w)
    | None =>
        match Prisma.upsert_run roomId boardData roomId boardData
                (Js.lit "Untitled Whiteboard") (Js.lit "1") env (db w) with
        | (Returned saved, t) =>
            (Returned (ok_with saved),
             mkWorld t (dbCalls w ++ [saveCall roomId boardData])
                     (revalidated w))
        | (Thrown _, t) =>
            (Returned (failure "Failed to save whiteboard state."),
             mkWorld t (dbCalls w ++ [saveCall roomId boardData])
                     (revalidated w))
        end
    end.
Proof.
  unfold saveBoardState.
  destruct (invalidKey roomId); [reflexivity|].
  unfold bind, try_catch, JSON_stringify, ret, throw.
  destruct (stringify_throws boardData); simpl; [reflexivity|].
  unfold Prisma.upsert, Prisma.call, logCall, saveCall.
  destruct (dbFault env); [reflexivity|].
  destruct (Prisma.upsert_run _ _ _ _ _ _ env (db w)) as [[saved|e] t];
    reflexivity.
Qed.

Lemma renameBoard_paths boardId newName env w :
  renameBoard boardId newName env w =
  match authenticatedUserId (session env) with
  | None => (Returned (failure "User not authenticated."), w)
  | Some userId =>
      if invalidKey boardId
      then (Returned (failure "Invalid Board ID provided."), w)
      else if negb (Js.truthy (Js.trim newName))
              || (Js.length (Js.trim newName) =? 0)%nat
      then (Returned (failure "Board name cannot be empty."), w)
      else if (60 <? Js.length (Js.trim newName))%nat
      then (Returned (failure "Board name cannot exceed 60 characters."), w)
      else
        match dbFault env with
        | Some _ =>
            (Returned
               (failure "Failed to rename whiteboard due to a server error."),
             logCall (renameCall boardId userId newName) w)
        | None =>
            if (List.length
                  (filter (Prisma.byIdAndOwner boardId userId) (db w)) =? 0)%nat
            then (Returned (failure "Board not found or permission denied."),
                  mkWorld (renamed boardId userId newName env (db w))
                          (dbCalls w ++ [renameCall boardId userId newName])
                          (revalidated w))
            else (Returned ok,
                  mkWorld (renamed boardId userId newName env (db w))
                          (dbCalls w ++ [renameCall boardId userId newName])
                          (revalidated w ++ ["/dashboard"%string]))
        end
  end.
Proof.
  unfold renameBoard, bind at 1, getServerSession.
  destruct (authenticatedUserId (session env)) as [userId|]; [|reflexivity].
  destruct (invalidKey boardId); [reflexivity|].
  destruct (negb (Js.truthy (Js.trim newName))
            || (Js.length (Js.trim newName) =? 0)%nat); [reflexivity|].
  destruct (60 <? Js.length (Js.trim newName))%nat; [reflexivity|].
  unfold try_catch, bind, Prisma.updateMany, Prisma.call, logCall.
  destruct (dbFault env); [reflexivity|].
  unfold Prisma.updateMany_run, renamed, renameCall.
  destruct (List.length _ =? 0)%nat; reflexivity.
Qed.

Lemma deleteBoard_paths boardId env w :
  deleteBoard boardId env w =
  match authenticatedUserId (session env) with
  | None => (Returned (failure "User not authenticated."), w)
  | Some userId =>
      if invalidKey boardId
      then (Returned (failure "Invalid Board ID provided."), w)
      else
        match dbFault env with
        | Some _ =>
            (Returned
               (failure "Failed to delete whiteboard due to a server error."),
             logCall (deleteCall boardId userId) w)
        | None =>
            let kept :=
              filter (fun x => negb (Prisma.byIdAndOwner boardId userId x))
                     (db w) in
            if (List.length
                  (filter (Prisma.byIdAndOwner boardId userId) (db w)) =? 0)%nat
            then (Returned (failure "Board not found or permission denied."),
                  mkWorld kept (dbCalls w ++ [deleteCall boardId userId])
                          (revalidated w))
            else (Returned ok,
                  mkWorld kept (dbCalls w ++ [deleteCall boardId userId])
                          (revalidated w ++ ["/dashboard"%string]))
        end
  end.
Proof.
  unfold deleteBoard, bind at 1, getServerSession.
  destruct (authenticatedUserId (session env)) as [userId|]; [|reflexivity].
  destruct (invalidKey boardId); [reflexivity|].
  unfold try_catch, bind, Prisma.deleteMany, Prisma.call, logCall.
  destruct (dbFault env); [reflexivity|].
  unfold Prisma.deleteMany_run, deleteCall.
  destruct (List.length _ =? 0)%nat; reflexivity.
Qed.

(* ================================================================== *)
(** * Runs on concrete worlds *)

Example trim_both_ends :
  Js.trim (Js.lit "  Road map ") = Js.lit "Road map".
Proof. reflexivity. Qed.

Example trim_blank : Js.trim (9 :: 32 :: 160 :: 8232 :: nil)%N = [].
Proof. reflexivity. Qed.

Example owner_renames :
  renameBoard (Js.lit "b1") (Js.lit " Road map ")
              (Sample.envOf (Sample.signedIn Sample.alice)) Sample.w1
  = (Returned ok,
     mkWorld [mkWhiteboard (Js.lit "b1") (Js.lit "room1") (Js.lit "Road map")
                           None Sample.alice 7%Z]
             [CallUpdateMany (Js.lit "b1") Sample.alice (Js.lit "Road map")]
             ["/dashboard"%string]).
Proof. reflexivity. Qed.

Example owner_deletes :
  deleteBoard (Js.lit "b1")
              (Sample.envOf (Sample.signedIn Sample.alice)) Sample.w1
  = (Returned ok,
     mkWorld [] [CallDeleteMany (Js.lit "b1") Sample.alice]
             ["/dashboard"%string]).
Proof. reflexivity. Qed.

Example create_then_listed :
  createBoard (Sample.envOf (Sample.signedIn Sample.bob)) Sample.w1
  = (Returned (ok_with (Js.lit "room2")),
     mkWorld [Sample.alicesBoard;
              mkWhiteboard (Js.lit "b2") (Js.lit "room2")
                           (Js.lit "Untitled Whiteboard") None Sample.bob 7%Z]
             [CallCreate Sample.bob (Js.lit "room2")
                         (Js.lit "Untitled Whiteboard")]
             ["/dashboard"%string]).
Proof. reflexivity. Qed.

(* ================================================================== *)
(** * Owner-scoped writes *)

(** C1.  A rename or delete that reaches the store (signed-in caller,
    well-formed board id, accepted name, store answering) issues a write
    whose filter is the pair (record id, session user id): the table after
    the write differs from the table before only on rows that match both.
    When no row matches both (wrong id, or the caller is not the owner) the
    write counts zero rows, and the action returns, without throwing, the
    failure result 'Board not found or permission denied.', the table being
    what it was. *)
Theorem owner_scoped_write_zero_count_is_permission_denied
    (env : Env) (w : World) (boardId userId : JsString) :
  authenticatedUserId (session env) = Some userId ->
  invalidKey boardId = false ->
  dbFault env = None ->
  (dbCalls (snd (deleteBoard boardId env w))
     = dbCalls w ++ [CallDeleteMany boardId userId]
   /\ db (snd (deleteBoard boardId env w))
     = filter (fun r => negb (Prisma.byIdAndOwner boardId userId r)) (db w)
   /\ forall newName,
       Js.trim newName <> [] -> (Js.length (Js.trim newName) <= 60)%nat ->
       dbCalls (snd (renameBoard boardId newName env w))
         = dbCalls w ++ [CallUpdateMany boardId userId (Js.trim newName)]
       /\ db (snd (renameBoard boardId newName env w))
         = map (fun r => if Prisma.byIdAndOwner boardId userId r
                         then Prisma.setName (Js.trim newName) (now env) r
                         else r) (db w))
  /\
  ((forall r, In r (db w) -> wb_id r <> boardId \/ wb_userId r <> userId) ->
   fst (Prisma.deleteMany boardId userId env w) = Returned 0%nat
   /\ deleteBoard boardId env w
      = (Returned permissionDenied, logCall (CallDeleteMany boardId userId) w)
   /\ forall newName,
       Js.trim newName <> [] -> (Js.length (Js.trim newName) <= 60)%nat ->
       fst (Prisma.updateMany boardId userId (Js.trim newName) env w)
         = Returned 0%nat
       /\ renameBoard boardId newName env w
          = (Returned permissionDenied,
             logCall (CallUpdateMany boardId userId (Js.trim newName)) w)).
Proof.
  intros Hauth Hid Hdb.
  assert (Hname : forall newName,
             Js.trim newName <> [] ->
             (Js.length (Js.trim newName) <= 60)%nat ->
             negb (Js.truthy (Js.trim newName))
             || (Js.length (Js.trim newName) =? 0)%nat = false
             /\ (60 <? Js.length (Js.trim newName))%nat = false).
  { intros newName Hne Hlen. split.
    - destruct (negb _ || _) eqn:E; [|reflexivity].
      apply empty_name_test in E. contradiction.
    - apply Nat.ltb_ge. exact Hlen. }
  split.
  - rewrite deleteBoard_paths, Hauth, Hid, Hdb. cbv zeta.
    repeat split.
    + destruct (_ =? 0)%nat; reflexivity.
    + destruct (_ =? 0)%nat; reflexivity.
    + rewrite renameBoard_paths, Hauth, Hid, Hdb.
      destruct (Hname newName H H0) as [-> ->].
      destruct (_ =? 0)%nat; reflexivity.
    + rewrite renameBoard_paths, Hauth, Hid, Hdb.
      destruct (Hname newName H H0) as [-> ->].
      destruct (_ =? 0)%nat; reflexivity.
  - intros Hnone.
    assert (Hp : forall r, In r (db w) ->
                 Prisma.byIdAndOwner boardId userId r = false).
    { intros r Hr. apply byIdAndOwner_false. auto. }
    repeat split.
    + unfold Prisma.deleteMany, Prisma.call, Prisma.deleteMany_run.
      rewrite Hdb. simpl. now rewrite no_match_count.
    + rewrite deleteBoard_paths, Hauth, Hid, Hdb. cbv zeta.
      rewrite no_match_count, no_match_keep by assumption. reflexivity.
    + unfold Prisma.updateMany, Prisma.call, Prisma.updateMany_run.
      rewrite Hdb. simpl. now rewrite no_match_count.
    + rewrite renameBoard_paths, Hauth, Hid, Hdb.
      destruct (Hname newName H H0) as [-> ->].
      unfold renamed. rewrite no_match_count, no_match_map by assumption.
      reflexivity.
Qed.

Lemma owner_scoped_write_zero_count_example :
  deleteBoard (Js.lit "b1")
              (Sample.envOf (Sample.signedIn Sample.bob)) Sample.w1
    = (Returned permissionDenied,
       logCall (CallDeleteMany (Js.lit "b1") Sample.bob) Sample.w1)
  /\ renameBoard (Js.lit "b1") (Js.lit " Mine now ")
                 (Sample.envOf (Sample.signedIn Sample.bob)) Sample.w1
    = (Returned permissionDenied,
       logCall (CallUpdateMany (Js.lit "b1") Sample.bob (Js.lit "Mine now"))
               Sample.w1).
Proof.
  assert (Hnone : forall r, In r (db Sample.w1) ->
            wb_id r <> Js.lit "b1" \/ wb_userId r <> Sample.bob).
  { intros r [<-|[]]. right. discriminate. }
  destruct (@owner_scoped_write_zero_count_is_permission_denied
              (Sample.envOf (Sample.signedIn Sample.bob)) Sample.w1
              (Js.lit "b1") Sample.bob eq_refl eq_refl eq_refl)
    as [_ Hzero].
  destruct (Hzero Hnone) as (_ & Hdel & Hren).
  split; [exact Hdel|].
  apply (Hren (Js.lit " Mine now ")); [discriminate | simpl; lia].
Defined.

(** C4.  When the signed-in caller owns no row with the target id, the
    owner-scoped rename write counts zero rows and leaves the table as it
    is, whatever the name; [renameBoard] returns a failure result with the
    table identical to the one before the call, and whenever the write is
    issued and answered that failure is the permission-denied one,
    'Board not found or permission denied.'. *)
Theorem rename_by_non_owner_changes_nothing
    (env : Env) (w : World) (boardId userId : JsString) :
  authenticatedUserId (session env) = Some userId ->
  (forall r, In r (db w) -> wb_id r = boardId -> wb_userId r <> userId) ->
  forall newName,
    Prisma.updateMany_run boardId userId (Js.trim newName) env (db w)
      = (Returned 0%nat, db w)
    /\ (exists res,
          fst (renameBoard boardId newName env w) = Returned res
          /\ success res = false)
    /\ db (snd (renameBoard boardId newName env w)) = db w
    /\ (invalidKey boardId = false ->
        Js.trim newName <> [] -> (Js.length (Js.trim newName) <= 60)%nat ->
        dbFault env = None ->
        renameBoard boardId newName env w
          = (Returned permissionDenied,
             logCall (CallUpdateMany boardId userId (Js.trim newName)) w)).
Proof.
  intros Hauth Hother newName.
  assert (Hp : forall r, In r (db w) ->
               Prisma.byIdAndOwner boardId userId r = false).
  { intros r Hr. apply byIdAndOwner_false.
    destruct (Js.eqb (wb_id r) boardId) eqn:E.
    - right. apply Hother; [assumption|]. now apply eqb_eq_js.
    - left. now apply eqb_neq_js. }
  assert (Hcount := no_match_count _ _ Hp).
  assert (Hmap := fun f => no_match_map _ f _ Hp).
  split; [|rewrite renameBoard_paths, Hauth; unfold renamed; repeat split].
  - unfold Prisma.updateMany_run. now rewrite Hcount, Hmap.
  - destruct (invalidKey boardId); [eexists; split; reflexivity|].
    destruct (negb _ || _); [eexists; split; reflexivity|].
    destruct (60 <? _)%nat; [eexists; split; reflexivity|].
    destruct (dbFault env); [eexists; split; reflexivity|].
    rewrite Hcount. eexists; split; reflexivity.
  - destruct (invalidKey boardId); [reflexivity|].
    destruct (negb _ || _); [reflexivity|].
    destruct (60 <? _)%nat; [reflexivity|].
    destruct (dbFault env); [reflexivity|].
    rewrite Hcount, Hmap. reflexivity.
  - intros -> Hne Hlen ->.
    destruct (negb _ || _) eqn:E;
      [apply empty_name_test in E; contradiction|].
    apply Nat.ltb_ge in Hlen. rewrite Hlen, Hcount, Hmap. reflexivity.
Qed.

Lemma rename_by_non_owner_example :
  renameBoard (Js.lit "b1") (Js.lit "Mine now")
              (Sample.envOf (Sample.signedIn Sample.bob)) Sample.w1
    = (Returned permissionDenied,
       logCall (CallUpdateMany (Js.lit "b1") Sample.bob (Js.lit "Mine now"))
               Sample.w1)
  /\ db (snd (renameBoard (Js.lit "b1") (Js.lit "Mine now")
                (Sample.envOf (Sample.signedIn Sample.bob)) Sample.w1))
     = [Sample.alicesBoard].
Proof.
  assert (Hother : forall r, In r (db Sample.w1) ->
            wb_id r = Js.lit "b1" -> wb_userId r <> Sample.bob).
  { intros r [<-|[]] _. discriminate. }
  destruct (@rename_by_non_owner_changes_nothing
              (Sample.envOf (Sample.signedIn Sample.bob)) Sample.w1
              (Js.lit "b1") Sample.bob eq_refl Hother (Js.lit "Mine now"))
    as (_ & _ & Hdb & Hdenied).
  split; [|exact Hdb].
  apply Hdenied; [reflexivity | discriminate | simpl; lia | reflexivity].
Defined.

(* ================================================================== *)
(** * The authentication check *)

Lemma no_id_is_unauthenticated (s : option Session) :
  session_user_id s = None -> authenticatedUserId s = None.
Proof. unfold authenticatedUserId. now intros ->. Qed.

(** C9.  Called without an authenticated session ([session?.user?.id]
    absent or empty), [createBoard], [renameBoard] and [deleteBoard] each
    return [{ success: false, error: 'User not authenticated.' }] and leave
    the world as it was: no client call is issued, the table is not touched,
    no path is revalidated. *)
Theorem unauthenticated_actions_do_nothing (env : Env) (w : World) :
  authenticatedUserId (session env) = None ->
  createBoard env w = (Returned notAuthenticated, w)
  /\ (forall boardId newName,
        renameBoard boardId newName env w = (Returned notAuthenticated, w))
  /\ (forall boardId,
        deleteBoard boardId env w = (Returned notAuthenticated, w)).
Proof.
  intros Hnone. repeat split; intros.
  - unfold createBoard, bind, getServerSession. now rewrite Hnone.
  - now rewrite renameBoard_paths, Hnone.
  - now rewrite deleteBoard_paths, Hnone.
Qed.

Lemma unauthenticated_actions_example :
  createBoard (Sample.envOf None) Sample.w1
    = (Returned notAuthenticated, Sample.w1)
  /\ renameBoard (Js.lit "b1") (Js.lit "Plan B") (Sample.envOf None) Sample.w1
    = (Returned notAuthenticated, Sample.w1)
  /\ deleteBoard (Js.lit "b1") (Sample.envOf None) Sample.w1
    = (Returned notAuthenticated, Sample.w1).
Proof.
  destruct (@unauthenticated_actions_do_nothing
              (Sample.envOf None) Sample.w1 eq_refl) as (Hc & Hr & Hd).
  split; [exact Hc | split; [apply Hr | apply Hd]].
Defined.

(* ================================================================== *)
(** * Name validation in renameBoard *)

(** C10.  [renameBoard] works on the trimmed name.  If the trimmed name is
    empty or has more than 60 code units the action returns a failure result
    and the world is untouched (no client call at all).  If the action
    returns success, the one client call it made is the update with the
    trimmed name, at least one row matched, and every row of the caller with
    that id now carries exactly the trimmed name. *)
Theorem rename_validates_trimmed_name
    (env : Env) (w : World) (boardId newName : JsString) :
  ((Js.trim newName = [] \/ (60 < Js.length (Js.trim newName))%nat) ->
   exists res,
     renameBoard boardId newName env w = (Returned res, w)
     /\ success res = false)
  /\
  (forall res w',
     renameBoard boardId newName env w = (Returned res, w') ->
     success res = true ->
     exists userId,
       authenticatedUserId (session env) = Some userId
       /\ dbCalls w' = dbCalls w ++ [CallUpdateMany boardId userId (Js.trim newName)]
       /\ (exists r, In r (db w') /\ wb_id r = boardId /\ wb_userId r = userId)
       /\ (forall r, In r (db w') -> wb_id r = boardId -> wb_userId r = userId ->
             wb_name r = Js.trim newName)).
Proof.
  rewrite renameBoard_paths. split.
  - intros Hbad.
    destruct (authenticatedUserId (session env)); [|eexists; split; reflexivity].
    destruct (invalidKey boardId); [eexists; split; reflexivity|].
    destruct Hbad as [Hempty | Hlong].
    + apply empty_name_test in Hempty. rewrite Hempty.
      eexists; split; reflexivity.
    + destruct (negb _ || _); [eexists; split; reflexivity|].
      apply Nat.ltb_lt in Hlong. rewrite Hlong. eexists; split; reflexivity.
  - intros res w' Hrun Hok.
    destruct (authenticatedUserId (session env)) as [userId|];
      [|inversion Hrun; subst; discriminate].
    destruct (invalidKey boardId); [inversion Hrun; subst; discriminate|].
    destruct (negb _ || _); [inversion Hrun; subst; discriminate|].
    destruct (60 <? _)%nat; [inversion Hrun; subst; discriminate|].
    destruct (dbFault env); [inversion Hrun; subst; discriminate|].
    destruct (_ =? 0)%nat eqn:Hcount; [inversion Hrun; subst; discriminate|].
    inversion Hrun; subst; clear Hrun. simpl.
    exists userId. repeat split.
    + apply Nat.eqb_neq in Hcount.
      apply count_pos_some_match in Hcount as (r & Hin & Hp).
      exists (Prisma.setName (Js.trim newName) (now env) r).
      apply byIdAndOwner_true in Hp as Hp'. destruct Hp' as [Hi Hu].
      repeat split; [|exact Hi|exact Hu].
      unfold renamed. apply in_map_iff. exists r. now rewrite Hp.
    + intros r Hin Hi Hu. unfold renamed in Hin.
      apply in_map_iff in Hin as (x & Hx & _).
      destruct (Prisma.byIdAndOwner boardId userId x) eqn:E.
      * now subst r.
      * subst x. apply byIdAndOwner_false in E. tauto.
Qed.

Lemma rename_validates_trimmed_name_example :
  (exists res,
     renameBoard (Js.lit "b1") (Js.lit "   ")
                 (Sample.envOf (Sample.signedIn Sample.alice)) Sample.w1
       = (Returned res, Sample.w1)
     /\ success res = false)
  /\ (forall r,
        In r (db (snd (renameBoard (Js.lit "b1") (Js.lit " Road map ")
                         (Sample.envOf (Sample.signedIn Sample.alice))
                         Sample.w1))) ->
        wb_id r = Js.lit "b1" -> wb_userId r = Sample.alice ->
        wb_name r = Js.lit "Road map").
Proof.
  split.
  - apply (@rename_validates_trimmed_name
             (Sample.envOf (Sample.signedIn Sample.alice)) Sample.w1
             (Js.lit "b1") (Js.lit "   ")).
    left. reflexivity.
  - destruct (@rename_validates_trimmed_name
                (Sample.envOf (Sample.signedIn Sample.alice)) Sample.w1
                (Js.lit "b1") (Js.lit " Road map ")) as [_ Hok].
    destruct (Hok _ _ eq_refl eq_refl) as (u & Hu & _ & _ & Hname).
    injection Hu as <-. exact Hname.
Defined.

(* ================================================================== *)
(** * saveBoardState *)

Lemma insert_fresh (row : Whiteboard) (t : Table) :
  (forall r, In r t -> wb_id r <> wb_id row) ->
  (forall r, In r t -> wb_roomId r <> wb_roomId row) ->
  Prisma.insert row t = (Returned row, t ++ [row]).
Proof.
  intros Hid Hroom. unfold Prisma.insert.
  rewrite (exists_absent _ Hroom).
  destruct (existsb (Prisma.byId (wb_id row)) t) eqn:E; [|reflexivity].
  apply existsb_exists in E as (r & Hin & Hb). apply eqb_eq_js in Hb.
  now destruct (Hid _ Hin).
Qed.

Lemma insert_table (row : Whiteboard) (t : Table) :
  snd (Prisma.insert row t) = t \/ snd (Prisma.insert row t) = t ++ [row].
Proof.
  unfold Prisma.insert. destruct (_ || _); simpl; auto.
Qed.

Lemma insert_thrown (row : Whiteboard) (t t' : Table) (e : Exn) :
  Prisma.insert row t = (Thrown e, t') -> t' = t.
Proof.
  unfold Prisma.insert. destruct (_ || _); congruence.
Qed.

Lemma find_present (rid : JsString) (t : Table) :
  (exists r, In r t /\ wb_roomId r = rid) ->
  exists r, find (Prisma.byRoomId rid) t = Some r.
Proof.
  intros (r & Hin & Hr).
  destruct (find (Prisma.byRoomId rid) t) eqn:E; [eauto|].
  apply (find_none _ _ E) in Hin.
  apply byRoomId_true in Hr. congruence.
Qed.

(** C7.  [saveBoardState] always returns a result object and never throws,
    whatever the input and whatever the store does.  A failed result always
    carries an error message, and whenever the upsert it issued throws, the
    caller receives [{ success: false, error: 'Failed to save whiteboard
    state.' }]; when the upsert answers, the caller receives the saved
    row. *)
Theorem saveBoardState_never_throws
    (roomId : JsString) (boardData : JsValue) (env : Env) (w : World) :
  exists res w',
    saveBoardState roomId boardData env w = (Returned res, w')
    /\ (success res = false -> exists msg, error res = Some msg)
    /\ (invalidKey roomId = false -> stringify_throws boardData = false ->
        forall out w1,
          Prisma.upsert roomId boardData roomId boardData
                        (Js.lit "Untitled Whiteboard") (Js.lit "1") env w
            = (out, w1) ->
          w' = w1
          /\ match out with
             | Thrown _ => res = saveFailed
             | Returned saved => res = ok_with saved
             end).
Proof.
  rewrite saveBoardState_paths.
  unfold Prisma.upsert, Prisma.call, logCall, saveCall.
  destruct (invalidKey roomId).
  { do 2 eexists. split; [reflexivity|]. split; [simpl; eauto|discriminate]. }
  destruct (stringify_throws boardData).
  { do 2 eexists. split; [reflexivity|]. split; [simpl; eauto|discriminate]. }
  destruct (dbFault env).
  { do 2 eexists. split; [reflexivity|]. split; [simpl; eauto|].
    intros _ _ out w1 [= <- <-]. split; reflexivity. }
  destruct (Prisma.upsert_run _ _ _ _ _ _ env (db w)) as [[saved|e] t].
  - do 2 eexists. split; [reflexivity|]. split; [discriminate|].
    intros _ _ out w1 [= <- <-]. split; reflexivity.
  - do 2 eexists. split; [reflexivity|]. split; [simpl; eauto|].
    intros _ _ out w1 [= <- <-]. split; reflexivity.
Qed.

Example save_surfaces_store_failure :
  saveBoardState (Js.lit "room1") JNull (Sample.faulty None) Sample.w1
  = (Returned saveFailed,
     logCall (saveCall (Js.lit "room1") JNull) Sample.w1).
Proof. reflexivity. Qed.

(** C2.  [saveBoardState] never consults the session: with another caller
    signed in, or none, the call returns the same result and the same world.
    When no row has the given [roomId], the table after the call is either
    the table before or the table before followed by one new row, and that
    row is owned by user '1' and named 'Untitled Whiteboard'; the row is
    created whenever the key is well-formed, the payload serializes, the
    store answers and its fresh primary key is unused. *)
Theorem save_creates_for_user_1_whoever_calls
    (roomId : JsString) (boardData : JsValue) (env : Env) (w : World) :
  (forall r, In r (db w) -> wb_roomId r <> roomId) ->
  (forall s,
     saveBoardState roomId boardData (withSession s env) w
       = saveBoardState roomId boardData env w)
  /\ wb_userId (createdBySave roomId boardData env) = Js.lit "1"
  /\ wb_name (createdBySave roomId boardData env)
       = Js.lit "Untitled Whiteboard"
  /\ (db (snd (saveBoardState roomId boardData env w)) = db w
      \/ db (snd (saveBoardState roomId boardData env w))
           = db w ++ [createdBySave roomId boardData env])
  /\ (invalidKey roomId = false -> stringify_throws boardData = false ->
      dbFault env = None ->
      (forall r, In r (db w) -> wb_id r <> dbFreshId env) ->
      saveBoardState roomId boardData env w
        = (Returned (ok_with (createdBySave roomId boardData env)),
           mkWorld (db w ++ [createdBySave roomId boardData env])
                   (dbCalls w ++ [saveCall roomId boardData])
                   (revalidated w))).
Proof.
  intros Habsent.
  split; [intros s; rewrite !saveBoardState_paths; reflexivity|].
  split; [reflexivity|]. split; [reflexivity|].
  rewrite saveBoardState_paths. unfold Prisma.upsert_run.
  rewrite (find_absent _ Habsent).
  fold (createdBySave roomId boardData env).
  split.
  - destruct (invalidKey roomId); [now left|].
    destruct (stringify_throws boardData); [now left|].
    destruct (dbFault env); [now left|].
    destruct (insert_table (createdBySave roomId boardData env) (db w)) as [H|H];
      destruct (Prisma.insert _ _) as [[saved|e] t]; simpl in *; auto.
  - intros -> -> -> Hfresh.
    rewrite insert_fresh; [reflexivity|exact Hfresh|exact Habsent].
Qed.

Lemma save_creates_for_user_1_example :
  saveBoardState (Js.lit "room9") (JObject [])
                 (Sample.envOf (Sample.signedIn Sample.alice)) Sample.w1
    = saveBoardState (Js.lit "room9") (JObject [])
                 (Sample.envOf (Sample.signedIn Sample.bob)) Sample.w1
  /\ db (snd (saveBoardState (Js.lit "room9") (JObject [])
                 (Sample.envOf (Sample.signedIn Sample.bob)) Sample.w1))
     = [Sample.alicesBoard;
        mkWhiteboard (Js.lit "b2") (Js.lit "room9")
                     (Js.lit "Untitled Whiteboard") (Some (JObject []))
                     (Js.lit "1") 7%Z].
Proof.
  assert (Habsent : forall r, In r (db Sample.w1) ->
            wb_roomId r <> Js.lit "room9").
  { intros r [<-|[]]. discriminate. }
  assert (Hfresh : forall r, In r (db Sample.w1) -> wb_id r <> Js.lit "b2").
  { intros r [<-|[]]. discriminate. }
  destruct (@save_creates_for_user_1_whoever_calls
              (Js.lit "room9") (JObject [])
              (Sample.envOf (Sample.signedIn Sample.bob)) Sample.w1 Habsent)
    as (Hsame & _ & _ & _ & Hnew).
  split.
  - exact (Hsame (Sample.signedIn Sample.alice)).
  - rewrite (Hnew eq_refl eq_refl eq_refl Hfresh). reflexivity.
Defined.

(** C5, as stated, fails: with a blank room id the key check comes first, and
    a payload that cannot be serialized is answered with
    'Invalid Room ID provided.', not with the serialization error. *)
Lemma blank_room_hides_serialization_error :
  stringify_throws selfReferring = true
  /\ saveBoardState (Js.lit " ") selfReferring (Sample.envOf None) Sample.w1
     = (Returned invalidRoomId, Sample.w1)
  /\ fst (saveBoardState (Js.lit " ") selfReferring (Sample.envOf None)
            Sample.w1)
     <> Returned notSerializable.
Proof.
  split; [reflexivity|]. split; [reflexivity|]. discriminate.
Qed.

(** C5, amended.  For every call of [saveBoardState] whose payload makes
    [JSON.stringify] throw, the call returns a failure result, issues no
    upsert and leaves the world as it was; the failure is
    'boardData is not JSON-serializable.' when the room id is not blank, and
    'Invalid Room ID provided.' when it is. *)
Theorem unserializable_payload_is_rejected_before_the_store
    (roomId : JsString) (boardData : JsValue) (env : Env) (w : World) :
  stringify_throws boardData = true ->
  saveBoardState roomId boardData env w
    = (Returned (if invalidKey roomId then invalidRoomId else notSerializable),
       w)
  /\ success (if invalidKey roomId then invalidRoomId else notSerializable)
     = false.
Proof.
  intros Hthrows. rewrite saveBoardState_paths, Hthrows.
  destruct (invalidKey roomId); split; reflexivity.
Qed.

Lemma unserializable_payload_example :
  saveBoardState (Js.lit "room1") (JArray [JNumber 1; JBigInt 2])
                 (Sample.envOf None) Sample.w1
  = (Returned notSerializable, Sample.w1).
Proof.
  exact (proj1 (@unserializable_payload_is_rejected_before_the_store
                  (Js.lit "room1") (JArray [JNumber 1; JBigInt 2])
                  (Sample.envOf None) Sample.w1 eq_refl)).
Defined.

Section Pointwise.

Variable R : Whiteboard -> Whiteboard -> Prop.

Lemma pointwise_map (g : Whiteboard -> Whiteboard) (t : Table) :
  (forall x, R x (g x)) -> Forall2 R t (map g t).
Proof.
  intros Hg. induction t as [|x t IH]; simpl; constructor; auto.
Qed.

Lemma pointwise_same (t : Table) : (forall x, R x x) -> Forall2 R t t.
Proof.
  intros Hr. induction t as [|x t IH]; constructor; auto.
Qed.

End Pointwise.

(** C6.  When a row with the given [roomId] exists, the table after
    [saveBoardState] has the same rows in the same order, each with its
    [id], [roomId], [name] and [userId] as before, and rows of other rooms
    are identical; when the save goes through, the rows of that room carry
    the new [boardData]. *)
Theorem save_on_existing_room_updates_boardData_only
    (roomId : JsString) (boardData : JsValue) (env : Env) (w : World) :
  (exists r, In r (db w) /\ wb_roomId r = roomId) ->
  Forall2 (fun r r' => sameIdentity r r' /\ (wb_roomId r <> roomId -> r' = r))
          (db w) (db (snd (saveBoardState roomId boardData env w)))
  /\ (invalidKey roomId = false -> stringify_throws boardData = false ->
      dbFault env = None ->
      (exists saved,
         fst (saveBoardState roomId boardData env w)
           = Returned (ok_with saved)
         /\ wb_roomId saved = roomId
         /\ wb_boardData saved = Some boardData)
      /\ dbCalls (snd (saveBoardState roomId boardData env w))
         = dbCalls w ++ [saveCall roomId boardData]
      /\ forall r', In r' (db (snd (saveBoardState roomId boardData env w))) ->
           wb_roomId r' = roomId -> wb_boardData r' = Some boardData).
Proof.
  intros Hexists.
  destruct (@find_present roomId (db w) Hexists) as [found Hfound].
  assert (Hroom : wb_roomId found = roomId).
  { apply find_some in Hfound as [_ Hb]. now apply byRoomId_true. }
  rewrite saveBoardState_paths. unfold Prisma.upsert_run. rewrite Hfound.
  split.
  - destruct (invalidKey roomId);
      [apply pointwise_same; unfold sameIdentity; auto|].
    destruct (stringify_throws boardData);
      [apply pointwise_same; unfold sameIdentity; auto|].
    destruct (dbFault env);
      [apply pointwise_same; unfold sameIdentity; auto|].
    simpl. apply pointwise_map. intros x.
    destruct (Prisma.byRoomId roomId x) eqn:E.
    + split; [unfold sameIdentity; simpl; auto|].
      apply byRoomId_true in E. congruence.
    + split; [unfold sameIdentity; auto|reflexivity].
  - intros -> -> ->. simpl. split; [|split; [reflexivity|]].
    + eexists. split; [reflexivity|]. simpl. auto.
    + intros r' Hin Hr'. apply in_map_iff in Hin as (x & Hx & _).
      destruct (Prisma.byRoomId roomId x) eqn:E.
      * now subst r'.
      * subst x. apply byRoomId_true in Hr'. congruence.
Qed.

Lemma save_on_existing_room_example :
  Forall2 (fun r r' =>
             sameIdentity r r' /\ (wb_roomId r <> Js.lit "room1" -> r' = r))
          [Sample.alicesBoard]
          (db (snd (saveBoardState (Js.lit "room1") (JObject [])
                      (Sample.envOf (Sample.signedIn Sample.bob)) Sample.w1)))
  /\ forall r',
       In r' (db (snd (saveBoardState (Js.lit "room1") (JObject [])
                         (Sample.envOf (Sample.signedIn Sample.bob))
                         Sample.w1))) ->
       wb_roomId r' = Js.lit "room1" -> wb_boardData r' = Some (JObject []).
Proof.
  assert (Hexists : exists r, In r (db Sample.w1)
                              /\ wb_roomId r = Js.lit "room1").
  { exists Sample.alicesBoard. split; [left|]; reflexivity. }
  destruct (@save_on_existing_room_updates_boardData_only
              (Js.lit "room1") (JObject [])
              (Sample.envOf (Sample.signedIn Sample.bob)) Sample.w1 Hexists)
    as [Hframe Hsaved].
  split; [exact Hframe|].
  exact (proj2 (proj2 (Hsaved eq_refl eq_refl eq_refl))).
Defined.

Example save_keeps_owner_and_name :
  saveBoardState (Js.lit "room1") (JObject [])
                 (Sample.envOf (Sample.signedIn Sample.bob)) Sample.w1
  = (Returned (ok_with (mkWhiteboard (Js.lit "b1") (Js.lit "room1")
                          (Js.lit "Plan") (Some (JObject [])) Sample.alice
                          7%Z)),
     mkWorld [mkWhiteboard (Js.lit "b1") (Js.lit "room1") (Js.lit "Plan")
                           (Some (JObject [])) Sample.alice 7%Z]
             [saveCall (Js.lit "room1") (JObject [])] []).
Proof. reflexivity. Qed.

(* ================================================================== *)
(** * Joining a room *)

(** C3, as stated, fails: a signed-in caller who joins a room that has no
    row gets no whiteboard at all; the page ends in a redirect to the
    dashboard. *)
Lemma join_of_unknown_room_is_redirected :
  (forall r, In r (db Sample.w1) -> wb_roomId r <> Js.lit "room9")
  /\ BoardPage (Js.lit "room9")
               (Sample.envOf (Sample.signedIn Sample.alice)) Sample.w1
     = (Thrown (NextRedirect "/dashboard"),
        logCall (CallFindUnique (Js.lit "room9")) Sample.w1)
  /\ forall view,
       fst (BoardPage (Js.lit "room9")
              (Sample.envOf (Sample.signedIn Sample.alice)) Sample.w1)
       <> Returned view.
Proof.
  split; [intros r [<-|[]]; discriminate|].
  split; [reflexivity|]. intros view. discriminate.
Qed.

(** C3, amended.  On room join by a signed-in caller, when the store answers
    and holds no row for the room id, [BoardPage] renders nothing: it
    redirects to '/dashboard', after the one lookup, with the table
    unchanged. *)
Theorem join_without_record_redirects_to_dashboard
    (roomId : JsString) (env : Env) (w : World) (u : SessionUser) :
  session env = Some (mkSession (Some u)) ->
  dbFault env = None ->
  (forall r, In r (db w) -> wb_roomId r <> roomId) ->
  BoardPage roomId env w
    = (Thrown (NextRedirect "/dashboard"), logCall (CallFindUnique roomId) w).
Proof.
  intros Hs Hdb Habsent.
  unfold BoardPage, bind, getServerSession. rewrite Hs.
  unfold Prisma.findUnique, Prisma.call, Prisma.findUnique_run.
  rewrite Hdb, (find_absent _ Habsent). reflexivity.
Qed.

Lemma join_without_record_example :
  BoardPage (Js.lit "room9")
            (Sample.envOf (Sample.signedIn Sample.bob)) Sample.w0
  = (Thrown (NextRedirect "/dashboard"),
     logCall (CallFindUnique (Js.lit "room9")) Sample.w0).
Proof.
  apply (@join_without_record_redirects_to_dashboard
           (Js.lit "room9") (Sample.envOf (Sample.signedIn Sample.bob))
           Sample.w0 (mkSessionUser (Some Sample.bob) None) eq_refl eq_refl).
  intros r [].
Defined.

Example join_of_known_room_renders :
  BoardPage (Js.lit "room1")
            (Sample.envOf (Sample.signedIn Sample.bob)) Sample.w1
  = (Returned (WhiteboardView (Js.lit "room1") None),
     logCall (CallFindUnique (Js.lit "room1")) Sample.w1).
Proof. reflexivity. Qed.

(* ================================================================== *)
(** * The shape of UndoableAction *)

(** C8.  Every [UndoableAction] is exactly one of three variants: 'ADD',
    whose payload is the object id alone; 'DELETE', whose payload is the
    previous object state alone; 'MODIFY', whose payload is the object id
    and the map of fields before the change.  The [type] tag tells which. *)
Theorem UndoableAction_has_three_variants (a : UndoableAction) :
  (exists objectId,
     a = ADD objectId
     /\ action_type a = "ADD"%string
     /\ payload_objectId a = Some objectId
     /\ payload_previousObjectState a = None
     /\ payload_stateBefore a = None)
  \/ (exists previousObjectState,
        a = DELETE previousObjectState
        /\ action_type a = "DELETE"%string
        /\ payload_objectId a = None
        /\ payload_previousObjectState a = Some previousObjectState
        /\ payload_stateBefore a = None)
  \/ (exists objectId stateBefore,
        a = MODIFY objectId stateBefore
        /\ action_type a = "MODIFY"%string
        /\ payload_objectId a = Some objectId
        /\ payload_previousObjectState a = None
        /\ payload_stateBefore a = Some stateBefore).
Proof.
  destruct a as [objectId | previousObjectState | objectId stateBefore].
  - left. exists objectId. repeat split.
  - right; left. exists previousObjectState. repeat split.
  - right; right. exists objectId, stateBefore. repeat split.
Qed.

(* ================================================================== *)
(** * createBoard, path by path *)

Lemma insert_cases (row : Whiteboard) (t : Table) :
  (Prisma.insert row t = (Thrown (PrismaError (Some "P2002"%string)), t)
   /\ (existsb (Prisma.byId (wb_id row)) t = true
       \/ existsb (Prisma.byRoomId (wb_roomId row)) t = true))
  \/ (Prisma.insert row t = (Returned row, t ++ [row])
      /\ existsb (Prisma.byId (wb_id row)) t = false
      /\ existsb (Prisma.byRoomId (wb_roomId row)) t = false).
Proof.
  unfold Prisma.insert.
  destruct (existsb (Prisma.byId (wb_id row)) t);
    destruct (existsb (Prisma.byRoomId (wb_roomId row)) t); simpl; auto.
Qed.

Lemma createBoard_paths env w :
  createBoard env w =
  match authenticatedUserId (session env) with
  | None => (Returned notAuthenticated, w)
  | Some userId =>
      match cuid env with
      | Thrown _ => (Returned noIdentifier, w)
      | Returned roomId =>
          let c := CallCreate userId roomId (Js.lit "Untitled Whiteboard") in
          match dbFault env with
          | Some e => (Returned (createBoard_onError e), logCall c w)
          | None =>
              match Prisma.insert (createdByCreate userId roomId env) (db w)
              with
              | (Returned row, t) =>
                  (Returned (ok_with (wb_roomId row)),
                   mkWorld t (dbCalls w ++ [c])
                           (revalidated w ++ ["/dashboard"%string]))
              | (Thrown e, t) =>
                  (Returned (createBoard_onError e),
                   mkWorld t (dbCalls w ++ [c]) (revalidated w))
              end
          end
      end
  end.
Proof.
  unfold createBoard, bind at 1, getServerSession.
  destruct (authenticatedUserId (session env)) as [userId|]; [|reflexivity].
  unfold bind at 1, try_catch at 1, bind at 1, Cuid_createId.
  destruct (cuid env) as [roomId|e]; [|reflexivity].
  unfold ret at 1. cbv zeta.
  unfold try_catch, bind, Prisma.create, Prisma.call, logCall,
    Prisma.create_run, createdByCreate.
  destruct (dbFault env); [reflexivity|].
  destruct (Prisma.insert _ (db w)) as [[row|e] t]; reflexivity.
Qed.

(** X1.  A signed-in caller whose generated room id and fresh primary key
    are both unused, with the store answering, gets
    [{ success: true, board: { roomId } }]: exactly one row is appended,
    owned by the caller, named 'Untitled Whiteboard', without board data, and
    '/dashboard' is revalidated. *)
Theorem createBoard_appends_the_callers_board
    (env : Env) (w : World) (userId roomId : JsString) :
  authenticatedUserId (session env) = Some userId ->
  cuid env = Returned roomId ->
  dbFault env = None ->
  (forall r, In r (db w) -> wb_roomId r <> roomId) ->
  (forall r, In r (db w) -> wb_id r <> dbFreshId env) ->
  createBoard env w
  = (Returned (ok_with roomId),
     mkWorld (db w ++ [createdByCreate userId roomId env])
             (dbCalls w
                ++ [CallCreate userId roomId (Js.lit "Untitled Whiteboard")])
             (revalidated w ++ ["/dashboard"%string])).
Proof.
  intros Hauth Hcuid Hdb Hroom Hid.
  rewrite createBoard_paths, Hauth, Hcuid, Hdb. cbv zeta.
  rewrite insert_fresh; [reflexivity | exact Hid | exact Hroom].
Qed.

Lemma createBoard_appends_example :
  createBoard (Sample.envOf (Sample.signedIn Sample.bob)) Sample.w1
  = (Returned (ok_with (Js.lit "room2")),
     mkWorld (db Sample.w1
                ++ [createdByCreate Sample.bob (Js.lit "room2")
                      (Sample.envOf (Sample.signedIn Sample.bob))])
             (dbCalls Sample.w1
                ++ [CallCreate Sample.bob (Js.lit "room2")
                      (Js.lit "Untitled Whiteboard")])
             (revalidated Sample.w1 ++ ["/dashboard"%string])).
Proof.
  apply (@createBoard_appends_the_callers_board
           (Sample.envOf (Sample.signedIn Sample.bob)) Sample.w1
           Sample.bob (Js.lit "room2") eq_refl eq_refl eq_refl).
  - intros r [<-|[]]. discriminate.
  - intros r [<-|[]]. discriminate.
Defined.

(** X2.  [createBoard] never throws: whatever the session, the identifier
    generator and the store do, it returns a result object.  A failed result
    carries an error message and leaves the table and the revalidated paths
    as they were; a successful one reports the room id of a row that is now
    in the table, owned by the caller. *)
Theorem createBoard_fails_cleanly (env : Env) (w : World) :
  exists res w',
    createBoard env w = (Returned res, w')
    /\ (success res = false ->
        (exists msg, error res = Some msg)
        /\ payload res = None
        /\ db w' = db w /\ revalidated w' = revalidated w)
    /\ (success res = true ->
        exists userId roomId,
          authenticatedUserId (session env) = Some userId
          /\ payload res = Some roomId
          /\ db w' = db w ++ [createdByCreate userId roomId env]
          /\ revalidated w' = revalidated w ++ ["/dashboard"%string]).
Proof.
  rewrite createBoard_paths.
  destruct (authenticatedUserId (session env)) as [userId|].
  2:{ do 2 eexists. split; [reflexivity|]. split; [|discriminate].
      intros _. simpl. eauto. }
  destruct (cuid env) as [roomId|e].
  2:{ do 2 eexists. split; [reflexivity|]. split; [|discriminate].
      intros _. simpl. eauto. }
  cbv zeta.
  assert (Hfail : forall e, success (createBoard_onError e) = false
                            /\ (exists msg, error (createBoard_onError e) = Some msg)
                            /\ payload (createBoard_onError e) = None).
  { intros [|[code|]| |path]; simpl; eauto.
    destruct (String.eqb code "P2002"); [simpl; eauto|].
    destruct (String.eqb code "P2003"); simpl; eauto. }
  destruct (dbFault env) as [e|].
  { do 2 eexists. split; [reflexivity|].
    destruct (Hfail e) as (Hs & Hm & Hp). rewrite Hs.
    split; [|discriminate]. intros _. simpl. auto. }
  destruct (insert_cases (createdByCreate userId roomId env) (db w))
    as [[-> _] | [-> _]].
  - do 2 eexists. split; [reflexivity|]. split; [|discriminate].
    intros _. simpl. eauto.
  - do 2 eexists. split; [reflexivity|]. split; [discriminate|].
    intros _. exists userId, roomId. simpl. auto.
Qed.

(** X3.  When the generated room id already belongs to a row, the unique
    column makes the insertion fail and the caller is told
    'A board with this identifier already exists. Please try again.'; the
    table is unchanged and nothing is revalidated. *)
Theorem createBoard_reports_taken_identifier
    (env : Env) (w : World) (userId roomId : JsString) (taken : Whiteboard) :
  authenticatedUserId (session env) = Some userId ->
  cuid env = Returned roomId ->
  dbFault env = None ->
  In taken (db w) -> wb_roomId taken = roomId ->
  createBoard env w
  = (Returned alreadyExists,
     logCall (CallCreate userId roomId (Js.lit "Untitled Whiteboard")) w).
Proof.
  intros Hauth Hcuid Hdb Hin Htaken.
  rewrite createBoard_paths, Hauth, Hcuid, Hdb. cbv zeta.
  destruct (insert_cases (createdByCreate userId roomId env) (db w))
    as [[-> _] | [_ [_ Hfree]]]; [reflexivity|].
  exfalso.
  assert (existsb (Prisma.byRoomId roomId) (db w) = true) as Hex.
  { apply existsb_exists. exists taken. split; [exact Hin|].
    now apply byRoomId_true. }
  simpl in Hfree. congruence.
Qed.

Lemma createBoard_taken_identifier_example :
  createBoard (mkEnv (Sample.signedIn Sample.bob)
                     (Returned (Js.lit "room1")) None (Js.lit "b2") 7%Z)
              Sample.w1
  = (Returned alreadyExists,
     logCall (CallCreate Sample.bob (Js.lit "room1")
                (Js.lit "Untitled Whiteboard")) Sample.w1).
Proof.
  apply (@createBoard_reports_taken_identifier
           (mkEnv (Sample.signedIn Sample.bob)
                  (Returned (Js.lit "room1")) None (Js.lit "b2") 7%Z)
           Sample.w1 Sample.bob (Js.lit "room1") Sample.alicesBoard
           eq_refl eq_refl eq_refl); [left|]; reflexivity.
Defined.

(* ================================================================== *)
(** * The unique columns are kept unique *)

Section UniqueColumns.

Variable A : Type.
Variable key : Whiteboard -> A.

Lemma NoDup_snoc (l : list A) (a : A) :
  NoDup l -> ~ In a l -> NoDup (l ++ [a]).
Proof.
  induction l as [|x l IH]; simpl; intros Hnd Hnotin.
  - constructor; [tauto | constructor].
  - inversion Hnd as [|? ? Hx Hl]; subst. constructor.
    + rewrite in_app_iff. simpl. intros [H | [H | []]]; [tauto|].
      apply Hnotin. now left.
    + apply IH; [assumption | tauto].
Qed.

Lemma keys_after_update (g : Whiteboard -> Whiteboard) (t : Table) :
  (forall x, key (g x) = key x) -> map key (map g t) = map key t.
Proof.
  intros Hg. rewrite map_map. apply map_ext. exact Hg.
Qed.

Lemma keys_after_filter (p : Whiteboard -> bool) (t : Table) :
  NoDup (map key t) -> NoDup (map key (filter p t)).
Proof.
  induction t as [|x t IH]; simpl; intros Hnd; [constructor|].
  inversion Hnd as [|? ? Hx Ht]; subst.
  destruct (p x); simpl; [|auto].
  constructor; [|auto].
  rewrite in_map_iff in *. intros (y & Hy & Hin). apply Hx.
  exists y. split; [exact Hy|]. now apply filter_In in Hin.
Qed.

End UniqueColumns.

Lemma unused_id (i : JsString) (t : Table) :
  existsb (Prisma.byId i) t = false -> ~ In i (map wb_id t).
Proof.
  intros Hex Hin. apply in_map_iff in Hin as (r & Hr & Hin).
  assert (existsb (Prisma.byId i) t = true); [|congruence].
  apply existsb_exists. exists r. split; [exact Hin|].
  unfold Prisma.byId. now apply eqb_eq_js.
Qed.

Lemma unused_roomId (rid : JsString) (t : Table) :
  existsb (Prisma.byRoomId rid) t = false -> ~ In rid (map wb_roomId t).
Proof.
  intros Hex Hin. apply in_map_iff in Hin as (r & Hr & Hin).
  assert (existsb (Prisma.byRoomId rid) t = true); [|congruence].
  apply existsb_exists. exists r. split; [exact Hin|].
  now apply byRoomId_true.
Qed.

Lemma insert_keeps_unique (row : Whiteboard) (t : Table) :
  uniqueColumns t -> uniqueColumns (snd (Prisma.insert row t)).
Proof.
  intros [Hid Hroom].
  destruct (insert_cases row t) as [[-> _] | (-> & Hi & Hr)]; simpl;
    [split; assumption|].
  unfold uniqueColumns. rewrite !map_app. simpl.
  split; apply NoDup_snoc; auto using unused_id, unused_roomId.
Qed.

Lemma update_keeps_unique (g : Whiteboard -> Whiteboard) (t : Table) :
  (forall x, wb_id (g x) = wb_id x) ->
  (forall x, wb_roomId (g x) = wb_roomId x) ->
  uniqueColumns t -> uniqueColumns (map g t).
Proof.
  intros Hi Hr [Hid Hroom]. unfold uniqueColumns.
  now rewrite !keys_after_update.
Qed.

(** X4.  Each of the four server actions keeps the [id] column and the
    [roomId] column of the table free of duplicates, whatever the session,
    the arguments and the behaviour of the store. *)
Theorem actions_keep_unique_columns (env : Env) (w : World) :
  uniqueColumns (db w) ->
  uniqueColumns (db (snd (createBoard env w)))
  /\ (forall roomId boardData,
        uniqueColumns (db (snd (saveBoardState roomId boardData env w))))
  /\ (forall boardId newName,
        uniqueColumns (db (snd (renameBoard boardId newName env w))))
  /\ (forall boardId,
        uniqueColumns (db (snd (deleteBoard boardId env w)))).
Proof.
  intros Hu. split; [|split; [|split]]; intros.
  - rewrite createBoard_paths.
    destruct (authenticatedUserId (session env)) as [userId|]; [|exact Hu].
    destruct (cuid env) as [roomId|e]; [|exact Hu]. cbv zeta.
    destruct (dbFault env); [exact Hu|].
    pose proof (insert_keeps_unique (createdByCreate userId roomId env) Hu)
      as Hins.
    destruct (Prisma.insert _ (db w)) as [[row|e] t]; exact Hins.
  - rewrite saveBoardState_paths.
    destruct (invalidKey roomId); [apply Hu|].
    destruct (stringify_throws boardData); [apply Hu|].
    destruct (dbFault env); [apply Hu|].
    unfold Prisma.upsert_run.
    destruct (find (Prisma.byRoomId roomId) (db w)).
    + simpl. apply update_keeps_unique; [| |exact Hu];
        intros x; destruct (Prisma.byRoomId roomId x); reflexivity.
    + pose proof (insert_keeps_unique
                    (createdBySave roomId boardData env) Hu) as Hins.
      unfold createdBySave in Hins.
      destruct (Prisma.insert _ (db w)) as [[row|e] t]; exact Hins.
  - rewrite renameBoard_paths.
    assert (Hren : forall userId,
              uniqueColumns (renamed boardId userId newName env (db w))).
    { intros userId. apply update_keeps_unique; [| |exact Hu];
        intros x; destruct (Prisma.byIdAndOwner boardId userId x);
        reflexivity. }
    destruct (authenticatedUserId (session env)) as [userId|]; [|apply Hu].
    destruct (invalidKey boardId); [apply Hu|].
    destruct (negb _ || _); [apply Hu|].
    destruct (60 <? _)%nat; [apply Hu|].
    destruct (dbFault env); [apply Hu|].
    destruct (_ =? 0)%nat; apply Hren.
  - rewrite deleteBoard_paths.
    destruct (authenticatedUserId (session env)) as [userId|]; [|apply Hu].
    destruct (invalidKey boardId); [apply Hu|].
    destruct (dbFault env); [apply Hu|]. cbv zeta.
    destruct Hu as [Hid Hroom].
    destruct (_ =? 0)%nat; simpl; split; now apply keys_after_filter.
Qed.

Lemma actions_keep_unique_columns_example :
  uniqueColumns
    (db (snd (createBoard (Sample.envOf (Sample.signedIn Sample.bob))
                Sample.w1)))
  /\ uniqueColumns
       (db (snd (deleteBoard (Js.lit "b1")
                   (Sample.envOf (Sample.signedIn Sample.alice)) Sample.w1))).
Proof.
  assert (Hu : uniqueColumns (db Sample.w1)).
  { split; simpl; (constructor; [intros [] | constructor]). }
  split.
  - exact (proj1 (@actions_keep_unique_columns
                    (Sample.envOf (Sample.signedIn Sample.bob)) Sample.w1 Hu)).
  - exact (proj2 (proj2 (proj2 (@actions_keep_unique_columns
                    (Sample.envOf (Sample.signedIn Sample.alice)) Sample.w1
                    Hu))) (Js.lit "b1")).
Defined.

(* ================================================================== *)
(** * deleteBoard *)

Lemma count_split (p : Whiteboard -> bool) (t : Table) :
  (List.length (filter p t) + List.length (filter (fun x => negb (p x)) t)
   = List.length t)%nat.
Proof.
  induction t as [|x t IH]; simpl; [reflexivity|].
  destruct (p x); simpl; lia.
Qed.

Lemma some_match_count (p : Whiteboard -> bool) (t : Table) (r : Whiteboard) :
  In r t -> p r = true -> List.length (filter p t) <> 0%nat.
Proof.
  intros Hin Hp Hzero.
  pose proof (count_zero_no_match p t Hzero r Hin). congruence.
Qed.

(** X5.  When the signed-in caller owns a row with the given id and the
    store answers, [deleteBoard] returns [{ success: true }], revalidates
    '/dashboard', and the table after it is the table before without the
    rows that have this id and this owner: no such row is left, every other
    row is still there, and with a unique [id] column exactly one row is
    gone. *)
Theorem deleteBoard_removes_the_callers_board
    (env : Env) (w : World) (boardId userId : JsString) (mine : Whiteboard) :
  authenticatedUserId (session env) = Some userId ->
  invalidKey boardId = false ->
  dbFault env = None ->
  In mine (db w) -> wb_id mine = boardId -> wb_userId mine = userId ->
  let w' := snd (deleteBoard boardId env w) in
  deleteBoard boardId env w
  = (Returned ok,
     mkWorld (filter (fun r => negb (Prisma.byIdAndOwner boardId userId r))
                     (db w))
             (dbCalls w ++ [CallDeleteMany boardId userId])
             (revalidated w ++ ["/dashboard"%string]))
  /\ (forall r, In r (db w') ->
        In r (db w) /\ (wb_id r <> boardId \/ wb_userId r <> userId))
  /\ (forall r, In r (db w) ->
        wb_id r <> boardId \/ wb_userId r <> userId -> In r (db w'))
  /\ (NoDup (map wb_id (db w)) ->
      S (List.length (db w')) = List.length (db w)).
Proof.
  intros Hauth Hid Hdb Hin Hmid Hmown w'.
  assert (Hp : Prisma.byIdAndOwner boardId userId mine = true).
  { now apply byIdAndOwner_true. }
  assert (Hcount := some_match_count _ _ _ Hin Hp).
  assert (Hrun : deleteBoard boardId env w
    = (Returned ok,
       mkWorld (filter (fun r => negb (Prisma.byIdAndOwner boardId userId r))
                       (db w))
               (dbCalls w ++ [CallDeleteMany boardId userId])
               (revalidated w ++ ["/dashboard"%string]))).
  { rewrite deleteBoard_paths, Hauth, Hid, Hdb. cbv zeta.
    apply Nat.eqb_neq in Hcount. now rewrite Hcount. }
  subst w'. rewrite Hrun. simpl. split; [reflexivity|]. split; [|split].
  - intros r Hr. apply filter_In in Hr as [Hr Hn]. split; [exact Hr|].
    apply byIdAndOwner_false. now destruct (Prisma.byIdAndOwner _ _ r).
  - intros r Hr Hother. apply filter_In. split; [exact Hr|].
    apply byIdAndOwner_false in Hother. now rewrite Hother.
  - intros Hnd.
    pose proof (unique_id_count boardId userId (db w) Hnd) as Hle.
    pose proof (count_split (Prisma.byIdAndOwner boardId userId) (db w)).
    lia.
Qed.

Lemma deleteBoard_removes_example :
  deleteBoard (Js.lit "b1")
              (Sample.envOf (Sample.signedIn Sample.alice)) Sample.w1
  = (Returned ok,
     mkWorld [] [CallDeleteMany (Js.lit "b1") Sample.alice]
             ["/dashboard"%string]).
Proof.
  exact (proj1 (@deleteBoard_removes_the_callers_board
                  (Sample.envOf (Sample.signedIn Sample.alice)) Sample.w1
                  (Js.lit "b1") Sample.alice Sample.alicesBoard
                  eq_refl eq_refl eq_refl (or_introl eq_refl)
                  eq_refl eq_refl)).
Defined.

(** X6.  [deleteBoard] never adds a row and never removes a row owned by
    anyone but the signed-in caller: whatever the arguments, the session and
    the store do, every row of the table after the call was in the table
    before, and every row whose owner is not the authenticated user id is
    still in the table. *)
Theorem deleteBoard_spares_other_owners
    (env : Env) (w : World) (boardId : JsString) :
  (forall r, In r (db (snd (deleteBoard boardId env w))) -> In r (db w))
  /\ (forall r, In r (db w) ->
        authenticatedUserId (session env) <> Some (wb_userId r) ->
        In r (db (snd (deleteBoard boardId env w)))).
Proof.
  rewrite deleteBoard_paths.
  destruct (authenticatedUserId (session env)) as [userId|]; [|simpl; auto].
  destruct (invalidKey boardId); [simpl; auto|].
  destruct (dbFault env); [simpl; auto|]. cbv zeta.
  assert (Hkeep : forall r, In r (db w) -> Some userId <> Some (wb_userId r) ->
            In r (filter (fun x => negb (Prisma.byIdAndOwner boardId userId x))
                         (db w))).
  { intros r Hr Hother. apply filter_In. split; [exact Hr|].
    destruct (Prisma.byIdAndOwner boardId userId r) eqn:E; [|reflexivity].
    apply byIdAndOwner_true in E as [_ E]. congruence. }
  destruct (_ =? 0)%nat; simpl; (split; [|exact Hkeep]);
    intros r Hr; now apply filter_In in Hr.
Qed.

(** X7.  Once a [deleteBoard] by a caller has reached the store and been
    answered, the board is gone for that caller: deleting it again returns
    'Board not found or permission denied.', and renaming it returns a
    failure result, whatever name is asked for. *)
Theorem deleted_board_is_gone
    (env env' : Env) (w : World) (boardId userId : JsString) :
  authenticatedUserId (session env) = Some userId ->
  authenticatedUserId (session env') = Some userId ->
  invalidKey boardId = false ->
  dbFault env = None -> dbFault env' = None ->
  let w' := snd (deleteBoard boardId env w) in
  deleteBoard boardId env' w'
    = (Returned permissionDenied, logCall (CallDeleteMany boardId userId) w')
  /\ forall newName,
       exists res,
         fst (renameBoard boardId newName env' w') = Returned res
         /\ success res = false
         /\ db (snd (renameBoard boardId newName env' w')) = db w'.
Proof.
  intros Hauth Hauth' Hid Hdb Hdb' w'.
  assert (Hgone : forall r, In r (db w') ->
            Prisma.byIdAndOwner boardId userId r = false).
  { subst w'. rewrite deleteBoard_paths, Hauth, Hid, Hdb. cbv zeta.
    intros r Hr.
    destruct (_ =? 0)%nat; simpl in Hr; apply filter_In in Hr as [_ Hr];
      now destruct (Prisma.byIdAndOwner boardId userId r). }
  assert (Hcount := no_match_count _ _ Hgone).
  split.
  - rewrite deleteBoard_paths, Hauth', Hid, Hdb'. cbv zeta.
    rewrite Hcount, no_match_keep by assumption. reflexivity.
  - intros newName. rewrite renameBoard_paths, Hauth', Hid, Hdb'.
    destruct (negb _ || _); [eexists; repeat split|].
    destruct (60 <? _)%nat; [eexists; repeat split|].
    rewrite Hcount. unfold renamed. rewrite no_match_map by assumption.
    eexists; repeat split.
Qed.

Lemma deleted_board_is_gone_example :
  deleteBoard (Js.lit "b1") (Sample.envOf (Sample.signedIn Sample.alice))
    (snd (deleteBoard (Js.lit "b1")
            (Sample.envOf (Sample.signedIn Sample.alice)) Sample.w1))
  = (Returned permissionDenied,
     logCall (CallDeleteMany (Js.lit "b1") Sample.alice)
       (snd (deleteBoard (Js.lit "b1")
               (Sample.envOf (Sample.signedIn Sample.alice)) Sample.w1))).
Proof.
  exact (proj1 (@deleted_board_is_gone
                  (Sample.envOf (Sample.signedIn Sample.alice))
                  (Sample.envOf (Sample.signedIn Sample.alice)) Sample.w1
                  (Js.lit "b1") Sample.alice
                  eq_refl eq_refl eq_refl eq_refl eq_refl)).
Defined.

(* ================================================================== *)
(** * More on trimming, keys and names *)

Lemma trimStart_idempotent (s : JsString) :
  Js.trimStart (Js.trimStart s) = Js.trimStart s.
Proof.
  induction s as [|c s IH]; simpl; [reflexivity|].
  destruct (Js.isWhiteSpace c) eqn:E; [exact IH|].
  simpl. now rewrite E.
Qed.

Lemma trimStart_clean (s : JsString) :
  (forall c rest, s = c :: rest -> Js.isWhiteSpace c = false) ->
  Js.trimStart s = s.
Proof.
  destruct s as [|c s]; intros H; simpl; [reflexivity|].
  now rewrite (H c s eq_refl).
Qed.

Lemma trim_idempotent (s : JsString) : Js.trim (Js.trim s) = Js.trim s.
Proof.
  unfold Js.trim at 1.
  rewrite (@trimStart_clean (Js.trim s) (@trim_first s)).
  unfold Js.trim, Js.trimEnd.
  now rewrite rev_involutive, trimStart_idempotent.
Qed.

Lemma trimStart_blank (s : JsString) :
  Js.trimStart s = [] <-> forallb Js.isWhiteSpace s = true.
Proof.
  induction s as [|c s IH]; simpl; [tauto|].
  destruct (Js.isWhiteSpace c); simpl; [exact IH|].
  split; discriminate.
Qed.

Lemma trim_blank_iff (s : JsString) :
  Js.trim s = [] <-> forallb Js.isWhiteSpace s = true.
Proof.
  rewrite <- trimStart_blank. unfold Js.trim, Js.trimEnd. split.
  - intros H. apply (f_equal (@rev N)) in H.
    rewrite rev_involutive in H. simpl in H.
    destruct (Js.trimStart s) as [|c rest] eqn:E; [reflexivity|].
    apply trimStart_blank in H. rewrite forallb_forall in H.
    pose proof (@trimStart_head _ _ _ E) as Hc.
    rewrite (H c) in Hc; [discriminate|].
    apply -> in_rev. now left.
  - intros ->. reflexivity.
Qed.

(** X8.  A key that is empty or made of white space only is rejected before
    anything else happens: [saveBoardState] answers
    'Invalid Room ID provided.', and for a signed-in caller [renameBoard]
    and [deleteBoard] answer 'Invalid Board ID provided.'; in each case the
    world is untouched. *)
Theorem blank_keys_are_rejected (k : JsString) (env : Env) (w : World) :
  forallb Js.isWhiteSpace k = true ->
  (forall boardData,
     saveBoardState k boardData env w = (Returned invalidRoomId, w))
  /\ (forall userId,
        authenticatedUserId (session env) = Some userId ->
        (forall newName,
           renameBoard k newName env w = (Returned invalidBoardId, w))
        /\ deleteBoard k env w = (Returned invalidBoardId, w)).
Proof.
  intros Hblank.
  assert (Hk : invalidKey k = true).
  { apply invalidKey_blank. now apply trim_blank_iff. }
  split.
  - intros boardData. now rewrite saveBoardState_paths, Hk.
  - intros userId Hauth. split.
    + intros newName. now rewrite renameBoard_paths, Hauth, Hk.
    + now rewrite deleteBoard_paths, Hauth, Hk.
Qed.

Lemma blank_keys_example :
  saveBoardState (9 :: 32 :: 12288 :: nil)%N JNull
                 (Sample.envOf None) Sample.w1
    = (Returned invalidRoomId, Sample.w1)
  /\ deleteBoard (9 :: 32 :: 12288 :: nil)%N
                 (Sample.envOf (Sample.signedIn Sample.alice)) Sample.w1
    = (Returned invalidBoardId, Sample.w1).
Proof.
  split.
  - exact (proj1 (@blank_keys_are_rejected (9 :: 32 :: 12288 :: nil)%N
                    (Sample.envOf None) Sample.w1 eq_refl) JNull).
  - exact (proj2 (proj2 (@blank_keys_are_rejected (9 :: 32 :: 12288 :: nil)%N
                    (Sample.envOf (Sample.signedIn Sample.alice)) Sample.w1
                    eq_refl) Sample.alice eq_refl)).
Defined.

(* ================================================================== *)
(** * renameBoard *)

Lemma renameBoard_success env w boardId newName res w' :
  renameBoard boardId newName env w = (Returned res, w') ->
  success res = true ->
  exists userId,
    authenticatedUserId (session env) = Some userId
    /\ Js.trim newName <> []
    /\ (Js.length (Js.trim newName) <= 60)%nat
    /\ db w' = renamed boardId userId newName env (db w).
Proof.
  rewrite renameBoard_paths. intros Hrun Hok.
  destruct (authenticatedUserId (session env)) as [userId|];
    [|inversion Hrun; subst; discriminate].
  destruct (invalidKey boardId); [inversion Hrun; subst; discriminate|].
  destruct (negb _ || _) eqn:Hempty; [inversion Hrun; subst; discriminate|].
  destruct (60 <? _)%nat eqn:Hlong; [inversion Hrun; subst; discriminate|].
  destruct (dbFault env); [inversion Hrun; subst; discriminate|].
  destruct (List.length (filter _ _) =? 0)%nat;
    [inversion Hrun; subst; discriminate|].
  inversion Hrun; subst; clear Hrun. exists userId. simpl.
  repeat split.
  - intros Hnil. apply empty_name_test in Hnil. congruence.
  - now apply Nat.ltb_ge.
Qed.

(** X9.  After a successful [renameBoard], the name stored on the caller's
    board has between 1 and 60 code units and neither starts nor ends with a
    white-space character. *)
Theorem renamed_board_has_a_clean_name
    (env : Env) (w w' : World) (boardId newName : JsString)
    (res : Result NoPayload) :
  renameBoard boardId newName env w = (Returned res, w') ->
  success res = true ->
  exists userId,
    authenticatedUserId (session env) = Some userId
    /\ forall r, In r (db w') -> wb_id r = boardId -> wb_userId r = userId ->
         (1 <= Js.length (wb_name r) <= 60)%nat
         /\ (forall c rest, wb_name r = c :: rest ->
               Js.isWhiteSpace c = false)
         /\ (forall front c, wb_name r = front ++ [c] ->
               Js.isWhiteSpace c = false).
Proof.
  intros Hrun Hok.
  destruct (@renameBoard_success _ _ _ _ _ _ Hrun Hok)
    as (userId & Hauth & Hne & Hlen & Hdb).
  exists userId. split; [exact Hauth|].
  intros r Hin Hi Hu.
  assert (Hname : wb_name r = Js.trim newName).
  { rewrite Hdb in Hin. unfold renamed in Hin.
    apply in_map_iff in Hin as (x & Hx & _).
    destruct (Prisma.byIdAndOwner boardId userId x) eqn:E.
    - now subst r.
    - subst x. apply byIdAndOwner_false in E. tauto. }
  rewrite Hname. repeat split.
  - destruct (Js.trim newName); [congruence | simpl; lia].
  - exact Hlen.
  - intros c rest. apply trim_first.
  - intros front c. apply trim_last.
Qed.

Lemma renamed_board_clean_name_example :
  exists userId,
    authenticatedUserId
      (session (Sample.envOf (Sample.signedIn Sample.alice))) = Some userId
    /\ forall r,
         In r (db (snd (renameBoard (Js.lit "b1") (Js.lit "  Road map ")
                          (Sample.envOf (Sample.signedIn Sample.alice))
                          Sample.w1))) ->
         wb_id r = Js.lit "b1" -> wb_userId r = userId ->
         (1 <= Js.length (wb_name r) <= 60)%nat
         /\ (forall c rest, wb_name r = c :: rest ->
               Js.isWhiteSpace c = false)
         /\ (forall front c, wb_name r = front ++ [c] ->
               Js.isWhiteSpace c = false).
Proof.
  exact (@renamed_board_has_a_clean_name
           (Sample.envOf (Sample.signedIn Sample.alice)) Sample.w1 _
           (Js.lit "b1") (Js.lit "  Road map ") _ eq_refl eq_refl).
Defined.

(** X10.  White space around the requested name does not matter:
    [renameBoard] with a name and with the trimmed name return the same
    result and leave the same world. *)
Theorem renameBoard_ignores_surrounding_white_space
    (env : Env) (w : World) (boardId newName : JsString) :
  renameBoard boardId (Js.trim newName) env w
  = renameBoard boardId newName env w.
Proof.
  rewrite !renameBoard_paths. unfold renameCall, renamed.
  now rewrite trim_idempotent.
Qed.

(** X11.  [renameBoard] keeps the rows in place and changes nothing but
    names and time stamps; a row that has another id, or whose owner is not
    the authenticated caller, is left exactly as it was, whatever the
    arguments, the session and the store do. *)
Theorem renameBoard_touches_the_callers_board_only
    (env : Env) (w : World) (boardId newName : JsString) :
  Forall2 (fun r r' =>
             sameButName r r'
             /\ (wb_id r <> boardId -> r' = r)
             /\ (authenticatedUserId (session env) <> Some (wb_userId r) ->
                 r' = r))
          (db w) (db (snd (renameBoard boardId newName env w))).
Proof.
  rewrite renameBoard_paths.
  assert (Hsame : Forall2 (fun r r' =>
             sameButName r r'
             /\ (wb_id r <> boardId -> r' = r)
             /\ (authenticatedUserId (session env) <> Some (wb_userId r) ->
                 r' = r)) (db w) (db w)).
  { apply pointwise_same. unfold sameButName. auto. }
  destruct (authenticatedUserId (session env)) as [userId|]; [|exact Hsame].
  destruct (invalidKey boardId); [exact Hsame|].
  destruct (negb _ || _); [exact Hsame|].
  destruct (60 <? _)%nat; [exact Hsame|].
  destruct (dbFault env); [exact Hsame|].
  assert (Hren : Forall2 (fun r r' =>
             sameButName r r'
             /\ (wb_id r <> boardId -> r' = r)
             /\ (Some userId <> Some (wb_userId r) -> r' = r))
            (db w) (renamed boardId userId newName env (db w))).
  { apply pointwise_map. intros x.
    destruct (Prisma.byIdAndOwner boardId userId x) eqn:E.
    - apply byIdAndOwner_true in E as [Ei Eu].
      unfold sameButName. simpl. repeat split; congruence.
    - unfold sameButName. auto. }
  destruct (_ =? 0)%nat; exact Hren.
Qed.

(* ================================================================== *)
(** * Joining a room, after the actions *)

Lemma BoardPage_paths roomId env w :
  BoardPage roomId env w =
  match session env with
  | Some {| user := Some _ |} =>
      match dbFault env with
      | Some e => (Thrown e, logCall (joinCall roomId) w)
      | None =>
          match find (Prisma.byRoomId roomId) (db w) with
          | Some r =>
              (Returned (WhiteboardView roomId (wb_boardData r)),
               logCall (joinCall roomId) w)
          | None =>
              (Thrown (NextRedirect "/dashboard"), logCall (joinCall roomId) w)
          end
      end
  | _ => (Thrown (NextRedirect "/signin"), w)
  end.
Proof.
  unfold BoardPage, bind at 1, getServerSession.
  destruct (session env) as [[[u|]]|]; try reflexivity.
  unfold bind, Prisma.findUnique, Prisma.call, Prisma.findUnique_run,
    logCall, joinCall.
  destruct (dbFault env); [reflexivity|].
  destruct (find (Prisma.byRoomId roomId) (db w)); reflexivity.
Qed.

Section Lookup.

Variable p : Whiteboard -> bool.

Lemma find_after_update (g : Whiteboard -> Whiteboard) (t : Table) :
  (forall x, p (g x) = p x) ->
  find p (map g t) = option_map g (find p t).
Proof.
  intros Hg. induction t as [|x t IH]; simpl; [reflexivity|].
  rewrite Hg. now destruct (p x).
Qed.

Lemma find_after_append (t : Table) (r : Whiteboard) :
  find p t = None -> find p (t ++ [r]) = if p r then Some r else None.
Proof.
  induction t as [|x t IH]; simpl; [reflexivity|].
  destruct (p x); [discriminate | exact IH].
Qed.

End Lookup.

Lemma unique_room_row (t : Table) (a b : Whiteboard) :
  NoDup (map wb_roomId t) -> In a t -> In b t ->
  wb_roomId a = wb_roomId b -> a = b.
Proof.
  induction t as [|x t IH]; simpl; intros Hnd Ha Hb Hab; [contradiction|].
  inversion Hnd as [|? ? Hx Ht]; subst.
  destruct Ha as [<-|Ha], Hb as [<-|Hb]; auto.
  - exfalso. apply Hx. rewrite Hab. now apply in_map.
  - exfalso. apply Hx. rewrite <- Hab. now apply in_map.
Qed.

(** X12.  [BoardPage] only reads: the table and the revalidated paths are
    the same after it as before, on every path.  A visitor whose session has
    no user is redirected to '/signin' before any lookup is made, and a
    failure of the lookup is not caught: it is thrown to the framework. *)
Theorem BoardPage_only_reads (roomId : JsString) (env : Env) (w : World) :
  db (snd (BoardPage roomId env w)) = db w
  /\ revalidated (snd (BoardPage roomId env w)) = revalidated w
  /\ (session env = None \/ session env = Some (mkSession None) ->
      BoardPage roomId env w = (Thrown (NextRedirect "/signin"), w))
  /\ (forall u e,
        session env = Some (mkSession (Some u)) -> dbFault env = Some e ->
        BoardPage roomId env w = (Thrown e, logCall (joinCall roomId) w)).
Proof.
  rewrite BoardPage_paths. repeat split.
  - destruct (session env) as [[[u|]]|]; try reflexivity.
    destruct (dbFault env); [reflexivity|].
    destruct (find _ _); reflexivity.
  - destruct (session env) as [[[u|]]|]; try reflexivity.
    destruct (dbFault env); [reflexivity|].
    destruct (find _ _); reflexivity.
  - intros [-> | ->]; reflexivity.
  - intros u e -> ->. reflexivity.
Qed.

(** X13.  With a unique [roomId] column, a signed-in visitor who joins the
    room of a row, the store answering, is shown the whiteboard of that room
    fed with exactly the board data stored on that row. *)
Theorem join_renders_the_stored_board
    (roomId : JsString) (env : Env) (w : World) (u : SessionUser)
    (r : Whiteboard) :
  signedInAs u env ->
  NoDup (map wb_roomId (db w)) ->
  In r (db w) -> wb_roomId r = roomId ->
  BoardPage roomId env w
  = (Returned (WhiteboardView roomId (wb_boardData r)),
     logCall (joinCall roomId) w).
Proof.
  intros [Hs Hdb] Hnd Hin Hroom.
  rewrite BoardPage_paths, Hs, Hdb.
  destruct (find (Prisma.byRoomId roomId) (db w)) as [r0|] eqn:E.
  - apply find_some in E as [Hin0 Hr0]. apply byRoomId_true in Hr0.
    rewrite (@unique_room_row (db w) r0 r Hnd Hin0 Hin); congruence.
  - apply (find_none _ _ E) in Hin. apply byRoomId_true in Hroom. congruence.
Qed.

Lemma join_renders_example :
  BoardPage (Js.lit "room1")
            (Sample.envOf (Sample.signedIn Sample.bob)) Sample.w1
  = (Returned (WhiteboardView (Js.lit "room1") None),
     logCall (joinCall (Js.lit "room1")) Sample.w1).
Proof.
  apply (@join_renders_the_stored_board
           (Js.lit "room1") (Sample.envOf (Sample.signedIn Sample.bob))
           Sample.w1 (mkSessionUser (Some Sample.bob) None)
           Sample.alicesBoard (conj eq_refl eq_refl)).
  - simpl. constructor; [intros [] | constructor].
  - left. reflexivity.
  - reflexivity.
Defined.



(** X15.  Renaming never changes what a join renders: for every room, the
    outcome of [BoardPage] on the table left by a [renameBoard] call is the
    outcome on the table before it, whatever the rename did. *)
Theorem rename_does_not_change_what_a_join_renders
    (env env' : Env) (w : World) (boardId newName roomId : JsString) :
  fst (BoardPage roomId env' (snd (renameBoard boardId newName env w)))
  = fst (BoardPage roomId env' w).
Proof.
  rewrite !BoardPage_paths.
  assert (Hfind : forall userId,
            option_map wb_boardData
              (find (Prisma.byRoomId roomId)
                    (renamed boardId userId newName env (db w)))
            = option_map wb_boardData (find (Prisma.byRoomId roomId) (db w))).
  { intros userId. unfold renamed. rewrite find_after_update.
    - destruct (find (Prisma.byRoomId roomId) (db w)) as [r|]; simpl;
        [|reflexivity].
      now destruct (Prisma.byIdAndOwner boardId userId r).
    - intros x. now destruct (Prisma.byIdAndOwner boardId userId x). }
  assert (Hjoin : forall t1 t2 c1 c2 v1 v2,
            option_map wb_boardData (find (Prisma.byRoomId roomId) t1)
            = option_map wb_boardData (find (Prisma.byRoomId roomId) t2) ->
            fst (match session env' with
                 | Some {| user := Some _ |} =>
                     match dbFault env' with
                     | Some e =>
                         (Thrown e, logCall (joinCall roomId) (mkWorld t1 c1 v1))
                     | None =>
                         match find (Prisma.byRoomId roomId)
                                 (db (mkWorld t1 c1 v1)) with
                         | Some r =>
                             (Returned
                                (WhiteboardView roomId (wb_boardData r)),
                              logCall (joinCall roomId) (mkWorld t1 c1 v1))
                         | None =>
                             (Thrown (NextRedirect "/dashboard"),
                              logCall (joinCall roomId) (mkWorld t1 c1 v1))
                         end
                     end
                 | _ => (Thrown (NextRedirect "/signin"), mkWorld t1 c1 v1)
                 end)
            = fst (match session env' with
                   | Some {| user := Some _ |} =>
                       match dbFault env' with
                       | Some e =>
                           (Thrown e,
                            logCall (joinCall roomId) (mkWorld t2 c2 v2))
                       | None =>
                           match find (Prisma.byRoomId roomId)
                                   (db (mkWorld t2 c2 v2)) with
                           | Some r =>
                               (Returned
                                  (WhiteboardView roomId (wb_boardData r)),
                                logCall (joinCall roomId) (mkWorld t2 c2 v2))
                           | None =>
                               (Thrown (NextRedirect "/dashboard"),
                                logCall (joinCall roomId) (mkWorld t2 c2 v2))
                           end
                       end
                   | _ => (Thrown (NextRedirect "/signin"), mkWorld t2 c2 v2)
                   end)).
  { intros t1 t2 c1 c2 v1 v2 Heq. simpl.
    destruct (session env') as [[[u|]]|]; try reflexivity.
    destruct (dbFault env'); [reflexivity|].
    destruct (find (Prisma.byRoomId roomId) t1),
             (find (Prisma.byRoomId roomId) t2); simpl in *; congruence. }
  destruct w as [t c v].
  rewrite renameBoard_paths. simpl db. simpl dbCalls. simpl revalidated.
  destruct (authenticatedUserId (session env)) as [userId|];
    [|reflexivity].
  destruct (invalidKey boardId); [reflexivity|].
  destruct (negb _ || _); [reflexivity|].
  destruct (60 <? _)%nat; [reflexivity|].
  destruct (dbFault env); [unfold logCall; simpl snd; now apply Hjoin|].
  destruct (_ =? 0)%nat; simpl snd; apply Hjoin; apply Hfind.
Qed.

(* ================================================================== *)
(** * The dashboard *)

Lemma insertByUpdatedAt_perm (r : Whiteboard) (l : list Whiteboard) :
  Permutation (insertByUpdatedAt r l) (r :: l).
Proof.
  induction l as [|x l IH]; simpl; [apply Permutation_refl|].
  destruct (wb_updatedAt x <? wb_updatedAt r)%Z; [apply Permutation_refl|].
  eapply perm_trans; [apply perm_skip, IH | apply perm_swap].
Qed.

Lemma orderByUpdatedAtDesc_perm (l : list Whiteboard) :
  Permutation (orderByUpdatedAtDesc l) l.
Proof.
  induction l as [|x l IH]; simpl; [constructor|].
  eapply perm_trans; [apply insertByUpdatedAt_perm | now apply perm_skip].
Qed.

Lemma insertByUpdatedAt_sorted (r : Whiteboard) (l : list Whiteboard) :
  StronglySorted newerFirstRow l ->
  StronglySorted newerFirstRow (insertByUpdatedAt r l).
Proof.
  induction l as [|x l IH]; simpl; intros Hs.
  - constructor; constructor.
  - inversion Hs as [|? ? Hl Hx]; subst.
    destruct (wb_updatedAt x <? wb_updatedAt r)%Z eqn:E.
    + apply Z.ltb_lt in E. constructor; [exact Hs|].
      constructor; [unfold newerFirstRow; lia|].
      eapply Forall_impl; [|exact Hx].
      unfold newerFirstRow. intros a Ha. lia.
    + apply Z.ltb_ge in E. constructor; [now apply IH|].
      eapply Permutation_Forall;
        [apply Permutation_sym, insertByUpdatedAt_perm|].
      constructor; [exact E | exact Hx].
Qed.

Lemma orderByUpdatedAtDesc_sorted (l : list Whiteboard) :
  StronglySorted newerFirstRow (orderByUpdatedAtDesc l).
Proof.
  induction l as [|x l IH]; simpl; [constructor|].
  now apply insertByUpdatedAt_sorted.
Qed.

Lemma selected_sorted (l : list Whiteboard) :
  StronglySorted newerFirstRow l ->
  StronglySorted newerFirst (map selectBoard l).
Proof.
  induction 1 as [|x l Hl IH Hx]; simpl; constructor; [exact IH|].
  apply Forall_map. exact Hx.
Qed.

Lemma DashboardPage_paths env w :
  DashboardPage env w =
  match session env with
  | Some {| user := Some u |} =>
      match dbFault env with
      | Some e => (Thrown e, w)
      | None =>
          (Returned (if (List.length (boardsOf (su_id u) (db w)) =? 0)%nat
                     then NoWhiteboardsYet
                     else BoardListItems (boardsOf (su_id u) (db w))),
           w)
      end
  | _ => (Thrown (NextRedirect "/signin"), w)
  end.
Proof.
  unfold DashboardPage, bind at 1, getServerSession.
  destruct (session env) as [[[u|]]|]; try reflexivity.
  unfold bind, Prisma_findMany, boardsOf.
  destruct (dbFault env); reflexivity.
Qed.

Lemma listed_boards (l : list Board) :
  listed (if (List.length l =? 0)%nat
          then NoWhiteboardsYet else BoardListItems l) = l.
Proof. destruct l; reflexivity. Qed.

Lemma boardsOf_perm (uid : option JsString) (t : Table) :
  Permutation (boardsOf uid t) (map selectBoard (filter (byOwner uid) t)).
Proof.
  unfold boardsOf. apply Permutation_map, orderByUpdatedAtDesc_perm.
Qed.

Lemma boardsOf_member (userId : JsString) (t : Table) (b : Board) :
  In b (boardsOf (Some userId) t)
  <-> exists r, In r t /\ wb_userId r = userId /\ b = selectBoard r.
Proof.
  split.
  - intros Hb.
    apply (Permutation_in _ (boardsOf_perm (Some userId) t)) in Hb.
    apply in_map_iff in Hb as (r & <- & Hr).
    apply filter_In in Hr as [Hr Ho]. simpl in Ho.
    apply eqb_eq_js in Ho. eauto.
  - intros (r & Hr & Ho & ->).
    apply (Permutation_in _ (Permutation_sym (boardsOf_perm (Some userId) t))).
    apply in_map, filter_In. split; [exact Hr|].
    simpl. now apply eqb_eq_js.
Qed.

(** X16.  For a signed-in user with an id, the store answering,
    [DashboardPage] lists exactly the boards that user owns, each once per
    row, newest [updatedAt] first, with the selected columns of the row; it
    shows the 'No whiteboards yet' message exactly when the user owns no
    row; and it leaves the world as it was. *)
Theorem dashboard_lists_the_callers_boards_newest_first
    (env : Env) (w : World) (u : SessionUser) (userId : JsString) :
  signedInAs u env ->
  su_id u = Some userId ->
  exists v,
    DashboardPage env w = (Returned v, w)
    /\ Permutation (listed v)
         (map selectBoard (filter (byOwner (Some userId)) (db w)))
    /\ StronglySorted newerFirst (listed v)
    /\ (forall b, In b (listed v) <->
          exists r, In r (db w) /\ wb_userId r = userId /\ b = selectBoard r)
    /\ (v = NoWhiteboardsYet <->
        forall r, In r (db w) -> wb_userId r <> userId).
Proof.
  intros [Hs Hdb] Hid.
  rewrite DashboardPage_paths, Hs, Hdb, Hid.
  eexists. split; [reflexivity|]. rewrite listed_boards.
  split; [apply boardsOf_perm|].
  split; [apply selected_sorted, orderByUpdatedAtDesc_sorted|].
  split; [intros b; apply boardsOf_member|].
  destruct (boardsOf (Some userId) (db w)) as [|b l] eqn:E; simpl.
  - split; [|reflexivity]. intros _ r Hr Ho.
    assert (In (selectBoard r) (boardsOf (Some userId) (db w))) as Hin.
    { apply boardsOf_member. eauto. }
    rewrite E in Hin. exact Hin.
  - split; [discriminate|]. intros Hnone. exfalso.
    assert (In b (boardsOf (Some userId) (db w))) as Hin.
    { rewrite E. now left. }
    apply boardsOf_member in Hin as (r & Hr & Ho & _).
    exact (Hnone r Hr Ho).
Qed.

Lemma dashboard_lists_example :
  exists v,
    DashboardPage (Sample.envOf (Sample.signedIn Sample.alice)) Sample.w1
      = (Returned v, Sample.w1)
    /\ Permutation (listed v)
         (map selectBoard
              (filter (byOwner (Some Sample.alice)) (db Sample.w1)))
    /\ StronglySorted newerFirst (listed v)
    /\ (forall b, In b (listed v) <->
          exists r, In r (db Sample.w1)
                    /\ wb_userId r = Sample.alice /\ b = selectBoard r)
    /\ (v = NoWhiteboardsYet <->
        forall r, In r (db Sample.w1) -> wb_userId r <> Sample.alice).
Proof.
  exact (@dashboard_lists_the_callers_boards_newest_first
           (Sample.envOf (Sample.signedIn Sample.alice)) Sample.w1
           (mkSessionUser (Some Sample.alice) None) Sample.alice
           (conj eq_refl eq_refl) eq_refl).
Defined.

Example dashboard_orders_by_stamp :
  fst (DashboardPage (Sample.envOf (Sample.signedIn Sample.alice))
         (mkWorld [mkWhiteboard (Js.lit "b1") (Js.lit "r1") (Js.lit "Old")
                                None Sample.alice 3%Z;
                   mkWhiteboard (Js.lit "b2") (Js.lit "r2") (Js.lit "Bob's")
                                None Sample.bob 9%Z;
                   mkWhiteboard (Js.lit "b3") (Js.lit "r3") (Js.lit "New")
                                None Sample.alice 8%Z] [] []))
  = Returned (BoardListItems
                [mkBoard (Js.lit "b3") (Js.lit "r3") (Js.lit "New") 8%Z;
                 mkBoard (Js.lit "b1") (Js.lit "r1") (Js.lit "Old") 3%Z]).
Proof. reflexivity. Qed.

(** X17.  [DashboardPage] only reads: on every path the table and the
    revalidated paths after it are those before.  A visitor whose session
    has no user is redirected to '/signin', and a failure of the store is
    not caught: it is thrown to the framework. *)
Theorem DashboardPage_only_reads (env : Env) (w : World) :
  (db (snd (DashboardPage env w)) = db w
   /\ revalidated (snd (DashboardPage env w)) = revalidated w)
  /\ (session env = None \/ session env = Some (mkSession None) ->
      DashboardPage env w = (Thrown (NextRedirect "/signin"), w))
  /\ (forall u e,
        session env = Some (mkSession (Some u)) -> dbFault env = Some e ->
        DashboardPage env w = (Thrown e, w)).
Proof.
  rewrite DashboardPage_paths. split; [|split].
  - destruct (session env) as [[[u|]]|]; try (split; reflexivity).
    destruct (dbFault env); split; reflexivity.
  - intros [-> | ->]; reflexivity.
  - intros u e -> ->. reflexivity.
Qed.

(** X18.  A session built by the [session] callback of [authOptions] carries
    the id of the database user, so the dashboard of such a session never
    lists a board of anyone else: every item it shows is a row of the table
    owned by that user. *)
Theorem callback_session_sees_own_boards_only
    (env : Env) (w w' : World) (s : Session) (userId : JsString)
    (v : Dashboard) :
  session env = Some (authOptions_session s userId) ->
  DashboardPage env w = (Returned v, w') ->
  forall b, In b (listed v) ->
    exists r, In r (db w) /\ wb_userId r = userId /\ b = selectBoard r.
Proof.
  intros Hs. rewrite DashboardPage_paths, Hs. unfold authOptions_session.
  destruct s as [[u|]]; simpl; [|discriminate].
  destruct (dbFault env); [discriminate|].
  intros [= <- _] b Hb. rewrite listed_boards in Hb.
  now apply boardsOf_member.
Qed.

Lemma callback_session_example :
  exists r, In r (db Sample.w1)
            /\ wb_userId r = Sample.alice
            /\ mkBoard (Js.lit "b1") (Js.lit "room1") (Js.lit "Plan") 5%Z
               = selectBoard r.
Proof.
  apply (@callback_session_sees_own_boards_only
           (Sample.envOf
              (Some (authOptions_session
                       (mkSession (Some (mkSessionUser None None)))
                       Sample.alice)))
           Sample.w1 Sample.w1
           (mkSession (Some (mkSessionUser None None))) Sample.alice
           _ eq_refl eq_refl).
  left. reflexivity.
Defined.

(* ================================================================== *)
(** * The actions, seen from the pages *)

Lemma createBoard_onError_payload (e : Exn) :
  payload (createBoard_onError e) = None.
Proof.
  destruct e as [|[code|]| |path]; simpl; try reflexivity.
  destruct (String.eqb code "P2002"); [reflexivity|].
  destruct (String.eqb code "P2003"); reflexivity.
Qed.

Lemma no_row_no_find (p : Whiteboard -> bool) (t : Table) :
  existsb p t = false -> find p t = None.
Proof.
  intros Hex. destruct (find p t) as [r|] eqn:E; [|reflexivity].
  apply find_some in E as [Hin Hp].
  assert (existsb p t = true); [|congruence].
  apply existsb_exists. eauto.
Qed.

Lemma createBoard_created env w res w' roomId userId :
  createBoard env w = (Returned res, w') ->
  payload res = Some roomId ->
  authenticatedUserId (session env) = Some userId ->
  db w' = db w ++ [createdByCreate userId roomId env]
  /\ find (Prisma.byRoomId roomId) (db w) = None.
Proof.
  rewrite createBoard_paths. intros Hrun Hpay Hauth. rewrite Hauth in Hrun.
  destruct (cuid env) as [rid|e];
    [|inversion Hrun; subst; discriminate].
  cbv zeta in Hrun.
  destruct (dbFault env) as [e|].
  { inversion Hrun; subst. rewrite createBoard_onError_payload in Hpay.
    discriminate. }
  destruct (insert_cases (createdByCreate userId rid env) (db w))
    as [[Hins _] | (Hins & _ & Hfree)]; rewrite Hins in Hrun;
    inversion Hrun; subst; clear Hrun; [discriminate|].
  simpl in Hpay. injection Hpay as <-. simpl.
  split; [reflexivity|]. now apply no_row_no_find.
Qed.

(** X19.  A board that [createBoard] reports as created can be used at
    once: a signed-in visitor who joins its room is shown an empty
    whiteboard (no stored board data), and the dashboard of its creator
    lists it under the name 'Untitled Whiteboard'. *)
Theorem created_board_is_joinable_and_listed
    (env : Env) (w w' : World) (res : Result JsString)
    (roomId userId : JsString) :
  createBoard env w = (Returned res, w') ->
  payload res = Some roomId ->
  authenticatedUserId (session env) = Some userId ->
  (forall env' u,
     signedInAs u env' ->
     BoardPage roomId env' w'
     = (Returned (WhiteboardView roomId None), logCall (joinCall roomId) w'))
  /\ (forall env' u,
        signedInAs u env' -> su_id u = Some userId ->
        exists v,
          DashboardPage env' w' = (Returned v, w')
          /\ In (mkBoard (dbFreshId env) roomId
                         (Js.lit "Untitled Whiteboard") (now env))
                (listed v)).
Proof.
  intros Hrun Hpay Hauth.
  destruct (createBoard_created _ _ Hrun Hpay Hauth) as [Hdb Hnone].
  split.
  - intros env' u [Hs Hf]. rewrite BoardPage_paths, Hs, Hf, Hdb.
    rewrite find_after_append by exact Hnone.
    unfold Prisma.byRoomId. simpl. now rewrite eqb_refl_js.
  - intros env' u [Hs Hf] Hid.
    rewrite DashboardPage_paths, Hs, Hf, Hid.
    eexists. split; [reflexivity|]. rewrite listed_boards.
    apply boardsOf_member.
    exists (createdByCreate userId roomId env).
    rewrite Hdb, in_app_iff. simpl. auto.
Qed.

Lemma created_board_example :
  BoardPage (Js.lit "room2") (Sample.envOf (Sample.signedIn Sample.alice))
    (snd (createBoard (Sample.envOf (Sample.signedIn Sample.bob)) Sample.w1))
  = (Returned (WhiteboardView (Js.lit "room2") None),
     logCall (joinCall (Js.lit "room2"))
       (snd (createBoard (Sample.envOf (Sample.signedIn Sample.bob))
               Sample.w1))).
Proof.
  exact (proj1 (@created_board_is_joinable_and_listed
                  (Sample.envOf (Sample.signedIn Sample.bob)) Sample.w1 _ _
                  (Js.lit "room2") Sample.bob eq_refl eq_refl eq_refl)
               (Sample.envOf (Sample.signedIn Sample.alice))
               (mkSessionUser (Some Sample.alice) None)
               (conj eq_refl eq_refl)).
Defined.

(** X20.  With unique columns, once its owner has deleted a board
    successfully the board is out of reach: a signed-in visitor who joins
    its room is redirected to '/dashboard', and the owner's dashboard lists
    no item with its id. *)
Theorem deleted_board_is_unreachable
    (env : Env) (w : World) (boardId userId : JsString) (mine : Whiteboard) :
  authenticatedUserId (session env) = Some userId ->
  invalidKey boardId = false ->
  dbFault env = None ->
  uniqueColumns (db w) ->
  In mine (db w) -> wb_id mine = boardId -> wb_userId mine = userId ->
  let w' := snd (deleteBoard boardId env w) in
  (forall env' u,
     signedInAs u env' ->
     BoardPage (wb_roomId mine) env' w'
     = (Thrown (NextRedirect "/dashboard"),
        logCall (joinCall (wb_roomId mine)) w'))
  /\ (forall env' u v w'',
        signedInAs u env' -> su_id u = Some userId ->
        DashboardPage env' w' = (Returned v, w'') ->
        forall b, In b (listed v) -> board_id b <> boardId).
Proof.
  intros Hauth Hid Hdb [Hids Hrooms] Hin Hmid Hmown w'.
  assert (Hw' : db w'
            = filter (fun r => negb (Prisma.byIdAndOwner boardId userId r))
                     (db w)).
  { subst w'. rewrite deleteBoard_paths, Hauth, Hid, Hdb. cbv zeta.
    destruct (_ =? 0)%nat; reflexivity. }
  assert (Hleft : forall r, In r (db w') ->
            In r (db w) /\ (wb_id r <> boardId \/ wb_userId r <> userId)).
  { intros r Hr. rewrite Hw' in Hr. apply filter_In in Hr as [Hr Hn].
    split; [exact Hr|]. apply byIdAndOwner_false.
    now destruct (Prisma.byIdAndOwner boardId userId r). }
  split.
  - intros env' u [Hs Hf]. rewrite BoardPage_paths, Hs, Hf.
    rewrite find_absent; [reflexivity|].
    intros r Hr Hroom. destruct (Hleft r Hr) as [Hrin Hother].
    assert (r = mine) by (apply (@unique_room_row (db w)); auto).
    subst r. tauto.
  - intros env' u v w'' [Hs Hf] Hu. rewrite DashboardPage_paths, Hs, Hf, Hu.
    intros [= <- _] b Hb Hbid. rewrite listed_boards in Hb.
    apply boardsOf_member in Hb as (r & Hr & Ho & ->).
    destruct (Hleft r Hr) as [_ [Hne | Hne]]; [|exact (Hne Ho)].
    apply Hne. exact Hbid.
Qed.

Lemma deleted_board_unreachable_example :
  BoardPage (Js.lit "room1") (Sample.envOf (Sample.signedIn Sample.alice))
    (snd (deleteBoard (Js.lit "b1")
            (Sample.envOf (Sample.signedIn Sample.alice)) Sample.w1))
  = (Thrown (NextRedirect "/dashboard"),
     logCall (joinCall (Js.lit "room1"))
       (snd (deleteBoard (Js.lit "b1")
               (Sample.envOf (Sample.signedIn Sample.alice)) Sample.w1))).
Proof.
  assert (Hu : uniqueColumns (db Sample.w1)).
  { split; simpl; (constructor; [intros [] | constructor]). }
  exact (proj1 (@deleted_board_is_unreachable
                  (Sample.envOf (Sample.signedIn Sample.alice)) Sample.w1
                  (Js.lit "b1") Sample.alice Sample.alicesBoard
                  eq_refl eq_refl eq_refl Hu (or_introl eq_refl)
                  eq_refl eq_refl)
               (Sample.envOf (Sample.signedIn Sample.alice))
               (mkSessionUser (Some Sample.alice) None)
               (conj eq_refl eq_refl)).
Defined.

(** X21.  After a successful [renameBoard] the owner's dashboard shows the
    board under its new name: it lists an item with the board's id, and
    every item with that id carries the trimmed name. *)
Theorem renamed_board_is_listed_under_its_new_name
    (env : Env) (w w' : World) (boardId newName : JsString)
    (res : Result NoPayload) :
  renameBoard boardId newName env w = (Returned res, w') ->
  success res = true ->
  exists userId,
    authenticatedUserId (session env) = Some userId
    /\ forall env' u,
         signedInAs u env' -> su_id u = Some userId ->
         exists v,
           DashboardPage env' w' = (Returned v, w')
           /\ (exists b, In b (listed v) /\ board_id b = boardId)
           /\ (forall b, In b (listed v) -> board_id b = boardId ->
                 board_name b = Js.trim newName).
Proof.
  intros Hrun Hok.
  destruct (@renameBoard_success _ _ _ _ _ _ Hrun Hok)
    as (userId & Hauth & _ & _ & Hdb).
  assert (Hmatch : exists r, In r (db w)
                             /\ Prisma.byIdAndOwner boardId userId r = true).
  { apply count_pos_some_match. intros Hzero.
    rewrite renameBoard_paths, Hauth in Hrun.
    destruct (invalidKey boardId); [inversion Hrun; subst; discriminate|].
    destruct (negb _ || _); [inversion Hrun; subst; discriminate|].
    destruct (60 <? _)%nat; [inversion Hrun; subst; discriminate|].
    destruct (dbFault env); [inversion Hrun; subst; discriminate|].
    rewrite Hzero in Hrun. inversion Hrun; subst; discriminate. }
  exists userId. split; [exact Hauth|].
  intros env' u [Hs Hf] Hu. rewrite DashboardPage_paths, Hs, Hf, Hu.
  eexists. split; [reflexivity|]. rewrite listed_boards, Hdb.
  split.
  - destruct Hmatch as (r & Hr & Hp).
    exists (selectBoard (Prisma.setName (Js.trim newName) (now env) r)).
    apply byIdAndOwner_true in Hp as Hp'. destruct Hp' as [Hi Ho].
    split; [|exact Hi].
    apply boardsOf_member. eexists. split; [|split; [|reflexivity]].
    + unfold renamed. apply in_map_iff. exists r. now rewrite Hp.
    + exact Ho.
  - intros b Hb Hbid.
    apply boardsOf_member in Hb as (r' & Hr' & Ho & ->).
    unfold renamed in Hr'. apply in_map_iff in Hr' as (x & Hx & _).
    destruct (Prisma.byIdAndOwner boardId userId x) eqn:E.
    + now subst r'.
    + subst x. apply byIdAndOwner_false in E. simpl in Hbid. tauto.
Qed.

Lemma renamed_board_listed_example :
  exists userId,
    authenticatedUserId
      (session (Sample.envOf (Sample.signedIn Sample.alice))) = Some userId
    /\ forall env' u,
         signedInAs u env' -> su_id u = Some userId ->
         exists v,
           DashboardPage env'
             (snd (renameBoard (Js.lit "b1") (Js.lit " Road map ")
                     (Sample.envOf (Sample.signedIn Sample.alice)) Sample.w1))
           = (Returned v,
              snd (renameBoard (Js.lit "b1") (Js.lit " Road map ")
                     (Sample.envOf (Sample.signedIn Sample.alice)) Sample.w1))
           /\ (exists b, In b (listed v) /\ board_id b = Js.lit "b1")
           /\ (forall b, In b (listed v) -> board_id b = Js.lit "b1" ->
                 board_name b = Js.trim (Js.lit " Road map ")).
Proof.
  exact (@renamed_board_is_listed_under_its_new_name
           (Sample.envOf (Sample.signedIn Sample.alice)) Sample.w1 _
           (Js.lit "b1") (Js.lit " Road map ") _ eq_refl eq_refl).
Defined.

(** X22.  A board that [saveBoardState] creates belongs to user '1', not to
    whoever saved: when no row had the room id before the save, the
    dashboard of any user whose id is not '1' lists no board of that room
    after it. *)
Theorem board_created_by_save_is_not_on_the_savers_dashboard
    (roomId : JsString) (boardData : JsValue) (env env' : Env) (w w'' : World)
    (u : SessionUser) (userId : JsString) (v : Dashboard) :
  (forall r, In r (db w) -> wb_roomId r <> roomId) ->
  signedInAs u env' -> su_id u = Some userId -> userId <> Js.lit "1" ->
  DashboardPage env' (snd (saveBoardState roomId boardData env w))
    = (Returned v, w'') ->
  forall b, In b (listed v) -> board_roomId b <> roomId.
Proof.
  intros Habsent [Hs Hf] Hu Hnot1.
  rewrite DashboardPage_paths, Hs, Hf, Hu.
  intros [= <- _] b Hb Hroom. rewrite listed_boards in Hb.
  apply boardsOf_member in Hb as (r & Hr & Ho & ->). simpl in Hroom.
  assert (Hcases : db (snd (saveBoardState roomId boardData env w)) = db w
                   \/ db (snd (saveBoardState roomId boardData env w))
                      = db w ++ [createdBySave roomId boardData env]).
  { rewrite saveBoardState_paths. unfold Prisma.upsert_run.
    rewrite (find_absent _ Habsent).
    fold (createdBySave roomId boardData env).
    destruct (invalidKey roomId); [now left|].
    destruct (stringify_throws boardData); [now left|].
    destruct (dbFault env); [now left|].
    destruct (insert_table (createdBySave roomId boardData env) (db w))
      as [H|H];
      destruct (Prisma.insert _ _) as [[saved|e] t]; simpl in *; auto. }
  destruct Hcases as [Hsame | Hnew].
  - rewrite Hsame in Hr. exact (Habsent r Hr Hroom).
  - rewrite Hnew, in_app_iff in Hr. destruct Hr as [Hr | [<- | []]].
    + exact (Habsent r Hr Hroom).
    + apply Hnot1. symmetry. exact Ho.
Qed.

Lemma board_created_by_save_example :
  board_roomId (mkBoard (Js.lit "b1") (Js.lit "room1") (Js.lit "Plan") 5%Z)
  <> Js.lit "room9".
Proof.
  assert (Habsent : forall r, In r (db Sample.w1) ->
            wb_roomId r <> Js.lit "room9").
  { intros r [<-|[]]. discriminate. }
  apply (@board_created_by_save_is_not_on_the_savers_dashboard
           (Js.lit "room9") JNull
           (Sample.envOf (Sample.signedIn Sample.alice))
           (Sample.envOf (Sample.signedIn Sample.alice)) Sample.w1
           (snd (saveBoardState (Js.lit "room9") JNull
                   (Sample.envOf (Sample.signedIn Sample.alice)) Sample.w1))
           (mkSessionUser (Some Sample.alice) None) Sample.alice
           (BoardListItems
              [mkBoard (Js.lit "b1") (Js.lit "room1") (Js.lit "Plan") 5%Z])
           Habsent (conj eq_refl eq_refl) eq_refl).
  - discriminate.
  - reflexivity.
  - left. reflexivity.
Defined.
